(** * SGT/data.py: the caption data pipeline

    A shallow embedding of [src/SGT/data.py]: the two dataset classes
    [Data] and [Data_test], the [MyPreProcessing] step, and the
    [Dataloader] facade with its collation function.

    Python values are written with the types the code gives them: paths
    and captions are strings, token ids are integers, arrays carry a
    shape and their entries.  Exceptions are results, and [print], the
    process-global random source, the tokenizer and the augmentation
    pipeline are effects threaded through a small state-and-error monad.
    The tokenizer, albumentations and the file system are collaborators
    of the module and stay parameters of the development. *)

From Stdlib Require Import ZArith List String Ascii Bool Lia QArith.
From Stdlib Require Import DecimalString DecimalZ DecimalPos DecimalFacts.
Import ListNotations.

Local Open Scope list_scope.
Local Open Scope string_scope.
Local Open Scope Z_scope.

(** ** The Python runtime the module relies on *)

Module Py.

(** The exception classes raised along the paths of the module. *)
Inductive exn : Type :=
| IndexError
| KeyError
| ValueError
| FileNotFoundError
| RuntimeError
| JSONDecodeError.

(** [issubclass(e, IndexError)]: [IndexError] has no subclass among the
    exceptions above ([KeyError] is a sibling under [LookupError]). *)
Definition is_IndexError (e : exn) : bool :=
  match e with
  | IndexError => true
  | _ => false
  end.

Inductive res (A : Type) : Type :=
| Ok (a : A)
| Raise (e : exn).
Arguments Ok {A} a.
Arguments Raise {A} e.

(** [l[i]] on a list: negative indices count from the end. *)
Definition getitem {A : Type} (l : list A) (i : Z) : res A :=
  let n := Z.of_nat (List.length l) in
  let j := if i <? 0 then n + i else i in
  if (0 <=? j) && (j <? n) then
    match nth_error l (Z.to_nat j) with
    | Some a => Ok a
    | None => Raise IndexError
    end
  else Raise IndexError.

(** [str(n)] for an [int]. *)
Definition str (n : Z) : string := NilZero.string_of_int (Z.to_int n).

(** [str.isspace] on the ASCII range. *)
Definition isspace (c : ascii) : bool :=
  let n := nat_of_ascii c in
  ((9 <=? n) && (n <=? 13) || (28 <=? n) && (n <=? 32))%nat.

Fixpoint lstrip (s : string) : string :=
  match s with
  | EmptyString => EmptyString
  | String c s' => if isspace c then lstrip s' else s
  end.

Fixpoint rstrip (s : string) : string :=
  match s with
  | EmptyString => EmptyString
  | String c s' =>
      match rstrip s' with
      | EmptyString => if isspace c then EmptyString else String c EmptyString
      | r => String c r
      end
  end.

(** [s.strip()] *)
Definition strip (s : string) : string := rstrip (lstrip s).

Definition isdigit (c : ascii) : bool :=
  let n := nat_of_ascii c in ((48 <=? n) && (n <=? 57))%nat.

Definition digit_value (c : ascii) : Z := Z.of_nat (nat_of_ascii c - 48).

(** The digits of a decimal literal: single underscores are allowed
    between digits, and at least one digit is required. *)
Fixpoint digits (s : string) (acc : Z) (after_digit : bool) : option Z :=
  match s with
  | EmptyString => if after_digit then Some acc else None
  | String c s' =>
      if isdigit c then digits s' (10 * acc + digit_value c) true
      else if Ascii.eqb c "_"%char then
             if after_digit then digits s' acc false else None
      else None
  end.

(** The white space [int] skips around a literal: C's [isspace], without
    the separators 0x1c to 0x1f that [str.strip] also removes. *)
Definition isspace_c (c : ascii) : bool :=
  let n := nat_of_ascii c in
  ((9 <=? n) && (n <=? 13) || (n =? 32))%nat.

Fixpoint lstrip_c (s : string) : string :=
  match s with
  | EmptyString => EmptyString
  | String c s' => if isspace_c c then lstrip_c s' else s
  end.

Fixpoint rstrip_c (s : string) : string :=
  match s with
  | EmptyString => EmptyString
  | String c s' =>
      match rstrip_c s' with
      | EmptyString => if isspace_c c then EmptyString else String c EmptyString
      | r => String c r
      end
  end.

(** [s.isascii()] *)
Fixpoint isascii (s : string) : bool :=
  match s with
  | EmptyString => true
  | String c s' => (nat_of_ascii c <? 128)%nat && isascii s'
  end.

(** [int(s)] for a [str] of ASCII text: surrounding white space, an
    optional sign, decimal digits.  Decimal digits and white space beyond
    ASCII, which [int] also reads, are outside this model of text. *)
Definition int (s : string) : res Z :=
  let body (t : string) (sign : Z) :=
    match digits t 0 false with
    | Some v => Ok (sign * v)
    | None => Raise ValueError
    end in
  match rstrip_c (lstrip_c s) with
  | String c t =>
      if Ascii.eqb c "-"%char then body t (-1)
      else if Ascii.eqb c "+"%char then body t 1
      else body (String c t) 1
  | EmptyString => Raise ValueError
  end.

(** [os.path.basename(p)]: what follows the last slash. *)
Fixpoint basename_from (p : string) (acc : string) : string :=
  match p with
  | EmptyString => acc
  | String c p' =>
      if Ascii.eqb c "/"%char then basename_from p' EmptyString
      else basename_from p' (acc ++ String c EmptyString)
  end.

Definition basename (p : string) : string := basename_from p EmptyString.

(** [s.split('.')[0]]: what precedes the first dot. *)
Fixpoint split_dot_0 (s : string) : string :=
  match s with
  | EmptyString => EmptyString
  | String c s' =>
      if Ascii.eqb c "."%char then EmptyString else String c (split_dot_0 s')
  end.

(** [if n:] for an [int]. *)
Definition truthy (n : Z) : bool := negb (n =? 0).

(** [range(n)], as [Subset] uses it: its length and its indexing. *)
Definition range_len (n : Z) : Z := Z.max 0 n.

Definition range_getitem (n : Z) (i : Z) : res Z :=
  let len := range_len n in
  let j := if i <? 0 then len + i else i in
  if (0 <=? j) && (j <? len) then Ok j else Raise IndexError.

End Py.

Import Py.

(** ** Arrays, events and the ambient world *)

(** An array (a decoded image, a torch tensor): its shape and its entries
    in row-major order. *)
Record tensor (A : Type) : Type := mkTensor {
  shape : list nat;
  data : list A
}.
Arguments mkTensor {A} shape data.
Arguments shape {A} t.
Arguments data {A} t.

Definition image : Type := tensor Q.

(** What a call leaves behind that an observer can see, in order. *)
Inductive event : Type :=
| EvPrint (line : string)
| EvTokenize (text : string)
| EvTransform (img : image).

(** The process-wide state next to the objects: standard output with the
    calls made to the collaborators, and the entropy the random sources
    will consume. *)
Record world : Type := mkWorld {
  events : list event;
  entropy : list nat
}.

(** Computations over a state [S] that may raise. *)
Definition M (S A : Type) : Type := S -> res A * S.

Definition ret {S A : Type} (a : A) : M S A := fun s => (Ok a, s).

Definition raise {S A : Type} (e : exn) : M S A := fun s => (Raise e, s).

Definition bind {S A B : Type} (m : M S A) (k : A -> M S B) : M S B :=
  fun s =>
    match m s with
    | (Ok a, s') => k a s'
    | (Raise e, s') => (Raise e, s')
    end.

Notation "x <- m ;; k" := (bind m (fun x => k))
  (at level 61, m at next level, right associativity).
Notation "m ;;; k" := (bind m (fun _ => k))
  (at level 61, right associativity).

(** A method body runs on the pair of its object and the world. *)
Definition get_self {O : Type} : M (O * world) O := fun s => (Ok (fst s), s).

Definition lift_res {S A : Type} (r : res A) : M S A := fun s => (r, s).

(** Run a computation on the world from inside a method. *)
Definition io {O A : Type} (m : M world A) : M (O * world) A :=
  fun s => let '(r, w) := m (snd s) in (r, (fst s, w)).

Definition emit (e : event) : M world unit :=
  fun w => (Ok tt, mkWorld (events w ++ [e])%list (entropy w)).

(** [print(line)] *)
Definition print (line : string) : M world unit := emit (EvPrint line).

(** [random.randint(a, b)]: an empty range raises [ValueError]; otherwise
    the next entropy is folded into the inclusive range. *)
Definition randint (a b : Z) : M world Z :=
  fun w =>
    if b <? a then (Raise ValueError, w)
    else
      match entropy w with
      | [] => (Ok a, w)
      | e :: es => (Ok (a + Z.of_nat e mod (b - a + 1)), mkWorld (events w) es)
      end.

(** ** Caption records, the file system and the augmentation steps *)

(** One entry of a caption file:
    [{"image_id": number, "captions": [string, ...]}].  The id is kept as
    the integer [int(anno['image_id'])] evaluates to. *)
Record anno : Type := mkAnno {
  image_id : Z;
  captions : list string
}.

(** What [open(path)] followed by [json.load] gives. *)
Inductive json_file : Type :=
| NoSuchFile
| Malformed
| Loaded (records : list anno).

(** The files the module reads: [glob(pattern)] in the order the file
    system lists them, [cv2.imread(path)] ([None] when nothing decodes)
    and the caption files. *)
Record filesystem : Type := mkFs {
  glob : string -> list string;
  imread : string -> option image;
  json_load : string -> json_file
}.

(** The value held in [self._captions]: the parsed list, or the [{}] of
    the fallback. *)
Inductive caption_store : Type :=
| Records (l : list anno)
| EmptyDict.

(** [for anno in self._captions]: a list yields its records, the empty
    dict yields nothing. *)
Definition iter (c : caption_store) : list anno :=
  match c with
  | Records l => l
  | EmptyDict => []
  end.

(** The steps handed to [A.Compose]. *)
Inductive aug : Type :=
| Resize (height width : Z)
| RandomBrightnessContrast (p : Q)
| HueSaturationValue (p : Q)
| HorizontalFlip (p : Q)
| VerticalFlip (p : Q)
| MyPreProcessing
| ToTensorV2.

Definition Compose : Type := list aug.

(** [f'{x}'] for an argument that may be [None]. *)
Definition fmt (x : option string) : string :=
  match x with
  | Some s => s
  | None => "None"
  end.

(** The collaborators of the module. *)
Record env : Type := mkEnv {
  (** the tokenizer call of [__getitem__], from the text to the squeezed
      [input_ids] (truncated at 512 by the tokenizer itself) *)
  tokenizer : string -> list Z;
  (** one albumentations step on an image, consuming entropy *)
  albumentations : aug -> image -> list nat -> res image * list nat;
  (** [astype('float32')] on one entry *)
  astype_float32 : Q -> Q;
  fs : filesystem
}.

Section Steps.

Variable E : env.

Definition tokenize (text : string) : M world (list Z) :=
  emit (EvTokenize text) ;;; ret (tokenizer E text).

(** [MyPreProcessing.__call__]: [(image/255.).astype('float32')] *)
Definition MyPreProcessing_call (img : image) : image :=
  mkTensor (shape img)
           (map (fun v => astype_float32 E (v / 255)%Q) (data img)).

Definition step (t : aug) (img : image) : M world image :=
  match t with
  | MyPreProcessing => ret (MyPreProcessing_call img)
  | _ => fun w =>
           let '(r, es) := albumentations E t img (entropy w) in
           (r, mkWorld (events w) es)
  end.

(** [Compose.__call__]: the steps in order, each on the image the
    previous one returned. *)
Fixpoint compose_call (ts : Compose) (img : image) : M world image :=
  match ts with
  | [] => ret img
  | t :: ts' => img' <- step t img ;; compose_call ts' img'
  end.

(** [self._transform(image=image)['image']] *)
Definition transform (ts : Compose) (img : image) : M world image :=
  emit (EvTransform img) ;;; compose_call ts img.

(** [if self._transform: image = self._transform(image=image)['image']],
    the block both dataset classes end on.  A [Compose] has the length of
    its step list, so an empty one is as false as [None]. *)
Definition apply_transform (tr : option Compose) (img : image)
  : M world image :=
  match tr with
  | Some (t :: ts) => transform (t :: ts) img
  | Some [] => ret img
  | None => ret img
  end.

End Steps.

(** ** class Data *)

Module Data.

Section Methods.

Variable E : env.

Record obj : Type := mk {
  _image_dir : string;
  _image_paths : list string;
  _caption_file_train : string;
  _caption_file_val : string;
  _transform : option Compose;
  _captions : caption_store
}.

(** The tokenizer loaded by the constructor is the one of the
    environment; [caption_split] is [None] when [get_dataloader] is called
    without it. *)
Definition __init__ (image_dir image_split : string)
    (caption_split : option string) (transform : option Compose)
  : M world obj :=
  let image_paths := glob (fs E) (image_dir ++ "/" ++ image_split ++ "/*.jpg") in
  let caption_file_train :=
    image_dir ++ "/" ++ fmt caption_split ++ "/train_captions.json" in
  let caption_file_val :=
    image_dir ++ "/" ++ fmt caption_split ++ "/val_captions.json" in
  caps <- match json_load (fs E) (if String.eqb image_split "train2017"
                              then caption_file_train
                              else caption_file_val) with
          | Loaded l => ret (Records l)
          | NoSuchFile =>
              print ("Caption file for " ++ image_split ++ " not found.") ;;;
              ret EmptyDict
          | Malformed => raise JSONDecodeError
          end ;;
  ret (mk image_dir image_paths caption_file_train caption_file_val
          transform caps).

Definition __len__ (self : obj) : Z :=
  Z.of_nat (List.length (_image_paths self)).

(** The list comprehension of [__getitem__]: the [captions] of every
    record with [str(int(anno['image_id'])) == image_id]. *)
Definition image_captions (store : caption_store) (image_id_ : string)
  : list (list string) :=
  map captions
      (filter (fun a => String.eqb (str (image_id a)) image_id_)
              (iter store)).

(** [captions = []; for cap in image_captions: captions = cap] *)
Definition last_assigned (image_captions_ : list (list string))
  : list string :=
  fold_left (fun _ cap => cap) image_captions_ [].

Definition no_captions_warning (image_id_ : string) : string :=
  "No captions found for image ID " ++ image_id_
    ++ ". Returning an empty caption.".

Definition __getitem__ (idx : Z) : M (obj * world) (image * list Z) :=
  self <- get_self ;;
  image_path <- lift_res (getitem (_image_paths self) idx) ;;
  img <- match imread (fs E) image_path with
         | Some a => ret a
         | None => raise FileNotFoundError
         end ;;
  n <- lift_res (int (split_dot_0 (basename image_path))) ;;
  let image_id_ := str n in
  let image_captions_ := image_captions (_captions self) image_id_ in
  match image_captions_ with
  | [] => io (print (no_captions_warning image_id_))
  | _ => ret tt
  end ;;;
  let captions_ := last_assigned image_captions_ in
  result <- io (randint 0 (Z.of_nat (List.length captions_) - 1)) ;;
  caption <- lift_res (getitem captions_ result) ;;
  caption_tensor <- io (tokenize E (strip caption)) ;;
  img' <- io (apply_transform E (_transform self) img) ;;
  ret (img', caption_tensor).

End Methods.

End Data.

(** ** class Data_test *)

Module Data_test.

Section Methods.

Variable E : env.

Record obj : Type := mk {
  _image_dir : string;
  _image_paths : list string;
  _transform : option Compose
}.

Definition __init__ (image_dir image_split : string)
    (transform : option Compose) : M world obj :=
  ret (mk image_dir
          (glob (fs E) (image_dir ++ "/" ++ image_split ++ "/*.jpg"))
          transform).

Definition __len__ (self : obj) : Z :=
  Z.of_nat (List.length (_image_paths self)).

Definition __getitem__ (idx : Z) : M (obj * world) image :=
  self <- get_self ;;
  image_path <- lift_res (getitem (_image_paths self) idx) ;;
  img <- match imread (fs E) image_path with
         | Some a => ret a
         | None => raise FileNotFoundError
         end ;;
  io (apply_transform E (_transform self) img).

End Methods.

End Data_test.

(** ** Datasets as the loader sees them *)

(** A provider of either class, or [Subset(dataset, range(stop))]. *)
Inductive dataset : Type :=
| OfData (d : Data.obj)
| OfData_test (d : Data_test.obj)
| Subset (base : dataset) (stop : Z).

(** What indexing a dataset returns: the pair of [Data], the lone image
    of [Data_test]. *)
Inductive sample : Type :=
| Captioned (img : image) (caption_tensor : list Z)
| Unlabelled (img : image).

Section Datasets.

Variable E : env.

(** [len(dataset)]; for a [Subset] it is [len(self.indices)]. *)
Definition dataset_len (ds : dataset) : Z :=
  match ds with
  | OfData d => Data.__len__ d
  | OfData_test d => Data_test.__len__ d
  | Subset _ stop => range_len stop
  end.

(** [dataset[idx]]; for a [Subset] it is
    [self.dataset[self.indices[idx]]]. *)
Fixpoint dataset_getitem (ds : dataset) (idx : Z) (w : world)
  : res sample * (dataset * world) :=
  match ds with
  | OfData d =>
      let '(r, (d', w')) := Data.__getitem__ E idx (d, w) in
      (match r with
       | Ok (img, cap) => Ok (Captioned img cap)
       | Raise e => Raise e
       end, (OfData d', w'))
  | OfData_test d =>
      let '(r, (d', w')) := Data_test.__getitem__ E idx (d, w) in
      (match r with
       | Ok img => Ok (Unlabelled img)
       | Raise e => Raise e
       end, (OfData_test d', w'))
  | Subset base stop =>
      match range_getitem stop idx with
      | Ok j =>
          let '(r, (base', w')) := dataset_getitem base j w in
          (r, (Subset base' stop, w'))
      | Raise e => (Raise e, (ds, w))
      end
  end.

End Datasets.

(** The arguments [get_dataloader] instantiates torch's [DataLoader]
    with; [collate_fn] records whether [self._collate_fn] was passed. *)
Record DataLoader : Type := mkDataLoader {
  loader_dataset : dataset;
  batch_size : Z;
  shuffle : bool;
  collate_fn : bool
}.

(** [DataLoader(dataset, batch_size=..., shuffle=..., collate_fn=...)]:
    with [shuffle] the random sampler refuses an empty dataset, and the
    batch sampler refuses a batch size below one, both with a
    [ValueError]. *)
Definition DataLoader_init (ds : dataset) (batch_size_ : Z) (shuffle_ : bool)
    (collate_fn_ : bool) : res DataLoader :=
  if shuffle_ && (dataset_len ds <=? 0) then Raise ValueError
  else if batch_size_ <? 1 then Raise ValueError
  else Ok (mkDataLoader ds batch_size_ shuffle_ collate_fn_).

(** ** class Dataloader *)

Module Dataloader.

Record obj : Type := mk {
  _batch_size : Z;
  _shuffle : bool;
  _subset : Z;
  _dir : string;
  _size : Z;
  _prob_aug : list (string * Q)
}.

Definition __init__ (batch_size_ size : Z) (shuffle_ : bool) (subset : Z)
  : obj :=
  mk batch_size_ shuffle_ subset
     "/home/hericlysdlarii/Projeto/coco-project/coco2017"
     size
     [("train2017", 1 # 2); ("val2017", 0 # 1); ("test2017", 0 # 1)]%Q.

(** The constructor's default, [subset: int = 0]. *)
Definition default_subset : Z := 0.

(** [d[key]] on a dict written as its items. *)
Fixpoint dict_getitem (d : list (string * Q)) (key : string) : res Q :=
  match d with
  | [] => Raise KeyError
  | (k, v) :: d' => if String.eqb k key then Ok v else dict_getitem d' key
  end.

(** [A.Resize(height=size, width=size)] refuses a size below one with a
    [ValueError], after the probability has been looked up. *)
Definition _transform (self : obj) (image_split : string) : res Compose :=
  match dict_getitem (_prob_aug self) image_split with
  | Ok p =>
      if _size self <? 1 then Raise ValueError else
      Ok [ Resize (_size self) (_size self);
           RandomBrightnessContrast p;
           HueSaturationValue p;
           HorizontalFlip p;
           VerticalFlip p;
           MyPreProcessing;
           ToTensorV2 ]
  | Raise e => Raise e
  end.

(** [torch.stack(images, 0)]: the tensors must agree on their shape; the
    result has one more leading axis. *)
Definition stack (images : list image) : res image :=
  match images with
  | [] => Raise RuntimeError
  | i0 :: _ =>
      if forallb (fun i => if list_eq_dec Nat.eq_dec (shape i) (shape i0)
                           then true else false) images
      then Ok (mkTensor (List.length images :: shape i0)
                        (List.concat (map data images)))
      else Raise RuntimeError
  end.

(** The longest sequence of a batch. *)
Definition max_len (seqs : list (list Z)) : nat :=
  fold_right (fun c m => Nat.max (List.length c) m) 0%nat seqs.

(** [pad_sequence(seqs, batch_first=True, padding_value=v)] on
    one-dimensional sequences: a [len(seqs)] by [max_len] tensor whose
    rows are the sequences filled up on the right. *)
Definition pad_sequence (seqs : list (list Z)) (padding_value : Z)
  : res (tensor Z) :=
  match seqs with
  | [] => Raise RuntimeError
  | _ =>
      let n := max_len seqs in
      Ok (mkTensor [List.length seqs; n]
            (List.concat (map (fun c =>
                            c ++ repeat padding_value (n - List.length c))%list
                         seqs)))
  end.

Definition _collate_fn (batch : list (image * list Z))
  : res (image * tensor Z) :=
  match batch with
  | [] => Raise ValueError
  | _ =>
      let images := map fst batch in
      let captions_ := map snd batch in
      match stack images with
      | Ok images' =>
          match pad_sequence captions_ 0 with
          | Ok captions' => Ok (images', captions')
          | Raise e => Raise e
          end
      | Raise e => Raise e
      end
  end.

Section Methods.

Variable E : env.

Definition get_dataloader (self : obj) (image_split : string)
    (caption_split : option string) : M world DataLoader :=
  if String.eqb image_split "test2017" then
    ts <- lift_res (_transform self image_split) ;;
    d <- Data_test.__init__ E (_dir self) image_split (Some ts) ;;
    let ds := OfData_test d in
    let ds := if truthy (_subset self) then Subset ds (_subset self)
              else ds in
    lift_res (DataLoader_init ds (_batch_size self) (_shuffle self) false)
  else
    ts <- lift_res (_transform self image_split) ;;
    d <- Data.__init__ E (_dir self) image_split caption_split (Some ts) ;;
    let ds := OfData d in
    let ds := if truthy (_subset self) then Subset ds (_subset self)
              else ds in
    lift_res (DataLoader_init ds (_batch_size self) (_shuffle self) true).


Definition get_val_dataloader (self : obj) : M world DataLoader :=
  get_dataloader self "val2017" (Some "captions").


End Methods.

End Dataloader.

(** ** A small dataset to run the code on *)

Module Example.

Definition root : string := "/data/coco".

Definition dog_path : string := "/data/coco/train2017/000123.jpg".

(** A two by two picture with three channels. *)
Definition dog_image : image :=
  mkTensor [2; 2; 3]%nat
    [255 # 1; 0 # 1; 51 # 1; 102 # 1; 0 # 1; 255 # 1;
     0 # 1; 0 # 1; 0 # 1; 255 # 1; 255 # 1; 255 # 1]%Q.

Definition glob_one (pattern : string) : list string :=
  if String.eqb pattern "/data/coco/train2017/*.jpg" then [dog_path] else [].

Definition imread_one (path : string) : option image :=
  if String.eqb path dog_path then Some dog_image else None.

(** The root of the worked example of the specification: one image and
    one caption record for it. *)
Definition fs_dog : filesystem :=
  mkFs glob_one imread_one
       (fun path =>
          if String.eqb path "/data/coco/captions/train_captions.json"
          then Loaded [mkAnno 123 ["a dog"]]
          else NoSuchFile).

(** The same image with a caption file that describes another image. *)
Definition fs_other : filesystem :=
  mkFs glob_one imread_one
       (fun path =>
          if String.eqb path "/data/coco/captions/train_captions.json"
          then Loaded [mkAnno 7 ["a cat"; "a kitten"]]
          else NoSuchFile).

(** The same image and no caption file at all. *)
Definition fs_bare : filesystem :=
  mkFs glob_one imread_one (fun _ => NoSuchFile).

(** Two records for image 123. *)
Definition fs_twice : filesystem :=
  mkFs glob_one imread_one
       (fun path =>
          if String.eqb path "/data/coco/captions/train_captions.json"
          then Loaded [mkAnno 123 ["first"]; mkAnno 7 ["a cat"];
                       mkAnno 123 ["second"]]
          else NoSuchFile).

(** A stand-in tokenizer: a start marker, one id per character, an end
    marker. *)
Definition toy_tokenizer (text : string) : list Z :=
  (101 :: map (fun c => Z.of_nat (nat_of_ascii c)) (list_ascii_of_string text)
       ++ [102])%list.

(** Stand-in augmentation steps: the resize fixes the shape, the tensor
    conversion moves the channels first, the others keep the image. *)
Definition toy_albumentations (t : aug) (img : image) (es : list nat)
  : res image * list nat :=
  match t with
  | Resize h w =>
      (Ok (mkTensor [Z.to_nat h; Z.to_nat w; 3%nat]
                    (repeat (0 # 1)%Q (Z.to_nat h * Z.to_nat w * 3))), es)
  | ToTensorV2 =>
      (Ok (mkTensor (match shape img with
                     | [h; w; c] => [c; h; w]
                     | s => s
                     end) (data img)), es)
  | _ => (Ok img, tl es)
  end.

Definition env_of (f : filesystem) : env :=
  mkEnv toy_tokenizer toy_albumentations Qred f.

Definition w0 : world := mkWorld [] [5; 3; 8]%nat.

Definition data_of (f : filesystem) : Data.obj :=
  match Data.__init__ (env_of f) root "train2017" (Some "captions") None w0 with
  | (Ok d, _) => d
  | (Raise _, _) => Data.mk "" [] "" "" None EmptyDict
  end.

(** Three training images under the directory the [Dataloader] reads,
    with their caption file. *)
Definition coco : string :=
  "/home/hericlysdlarii/Projeto/coco-project/coco2017".

Definition fs_coco : filesystem :=
  mkFs (fun pattern =>
          if String.eqb pattern (coco ++ "/train2017/*.jpg")
          then [coco ++ "/train2017/000009.jpg";
                coco ++ "/train2017/000025.jpg";
                coco ++ "/train2017/000030.jpg"]
          else [])
       (fun _ => Some dog_image)
       (fun path =>
          if String.eqb path (coco ++ "/captions/train_captions.json")
          then Loaded [mkAnno 9 ["a plate of food"];
                       mkAnno 25 ["a giraffe"; "a tall animal"];
                       mkAnno 30 ["a vase"]]
          else NoSuchFile).

(** The training loader over [fs_coco] for a given subset size. *)
Definition coco_loader (subset : Z) : DataLoader :=
  match Dataloader.get_dataloader (env_of fs_coco)
          (Dataloader.__init__ 4 2 false subset)
          "train2017" (Some "captions") w0 with
  | (Ok loader, _) => loader
  | (Raise _, _) => mkDataLoader (OfData (data_of fs_bare)) 0 false false
  end.

Definition img_a : image := mkTensor [3; 1; 1]%nat [1 # 1; 2 # 1; 3 # 1]%Q.
Definition img_b : image := mkTensor [3; 1; 1]%nat [4 # 1; 5 # 1; 6 # 1]%Q.

Definition batch2 : list (image * list Z) :=
  [(img_a, [101; 7; 102]); (img_b, [101; 7; 8; 9; 102])].

(** The image is listed but nothing decodes. *)
Definition fs_corrupt : filesystem :=
  mkFs glob_one (fun _ => None) (fun _ => NoSuchFile).

(** A file name that is no integer literal: the digits 12 after the unit
    separator 0x1f, which [str.strip] removes and [int] does not. *)
Definition named_path : string :=
  "/data/coco/train2017/" ++ String "031"%char "12.jpg".

Definition fs_named : filesystem :=
  mkFs (fun pattern =>
          if String.eqb pattern "/data/coco/train2017/*.jpg"
          then [named_path] else [])
       (fun _ => Some dog_image)
       (fun _ => NoSuchFile).

(** A record for image 123 that lists no caption. *)
Definition fs_silent : filesystem :=
  mkFs glob_one imread_one
       (fun path =>
          if String.eqb path "/data/coco/captions/train_captions.json"
          then Loaded [mkAnno 123 ["a dog"]; mkAnno 123 []]
          else NoSuchFile).

(** Two images, the first with some captions padded with white space. *)
Definition fs_pair : filesystem :=
  mkFs (fun pattern =>
          if String.eqb pattern "/data/coco/train2017/*.jpg"
          then ["/data/coco/train2017/000123.jpg";
                "/data/coco/train2017/000007.jpg"] else [])
       (fun _ => Some dog_image)
       (fun path =>
          if String.eqb path "/data/coco/captions/train_captions.json"
          then Loaded [mkAnno 123 [" a dog "; "a puppy"]; mkAnno 7 ["a cat"]]
          else NoSuchFile).

(** A validation split: only [val_captions.json] exists. *)
Definition fs_val : filesystem :=
  mkFs (fun pattern =>
          if String.eqb pattern "/data/coco/val2017/*.jpg"
          then ["/data/coco/val2017/000042.jpg"] else [])
       (fun _ => Some dog_image)
       (fun path =>
          if String.eqb path "/data/coco/captions/val_captions.json"
          then Loaded [mkAnno 42 ["a bench"]]
          else NoSuchFile).


(** A batch whose captions have one length. *)
Definition batch_even : list (image * list Z) :=
  [(img_a, [101; 7; 102]); (img_b, [101; 9; 102])].

End Example.

(** ** Vocabulary of the statements *)

(** Row [i] of a two-dimensional tensor, [t[i]]. *)
Definition row {A : Type} (t : tensor A) (i : nat) : list A :=
  let width := nth 1 (shape t) 0%nat in
  firstn width (skipn (i * width) (data t)).

(** A computation of a method that leaves its object as it found it. *)
Definition preserves_self {O A : Type} (m : M (O * world) A) : Prop :=
  forall s, fst (snd (m s)) = fst s.

(** The splits the [Dataloader] knows. *)
Definition splits : list string := ["train2017"; "val2017"; "test2017"].

(** The records of a caption list that describe image [n]. *)
Definition matching (n : Z) (l : list anno) : list anno :=
  filter (fun a => image_id a =? n) l.

(** The world after one more line on standard output. *)
Definition printed (w : world) (line : string) : world :=
  mkWorld (events w ++ [EvPrint line])%list (entropy w).

(** The world once the tokenizer has been called on [text]. *)
Definition tokenized (w : world) (text : string) : world :=
  mkWorld (events w ++ [EvTokenize text])%list (entropy w).

(** The world once the transform has been called on [img], before its
    steps run. *)
Definition transforming (w : world) (img : image) : world :=
  mkWorld (events w ++ [EvTransform img])%list (entropy w).

(** The characters of a string. *)
Definition chars (s : string) : list ascii := list_ascii_of_string s.

(** The images of a batch agree on their shape. *)
Definition uniform_shapes (batch : list (image * list Z)) : Prop :=
  forall p q, In p batch -> In q batch -> shape (fst p) = shape (fst q).

(** [if self._transform:] holds: there is a pipeline and it has a step. *)
Definition calls_transform (tr : option Compose) : bool :=
  match tr with
  | Some (_ :: _) => true
  | _ => false
  end.

(** What an access appended to the events of the world. *)
Definition appended (w w' : world) (suffix : list event) : Prop :=
  events w' = (events w ++ suffix)%list.

(** ** Facts about the runtime *)

Lemma str_inj (a b : Z) : str a = str b -> a = b.
Proof.
  unfold str. intros H.
  apply DecimalZ.to_int_inj.
  assert (parse : forall z,
             NilZero.int_of_string (NilZero.string_of_int (Z.to_int z))
             = Some (Z.to_int z)).
  { intros z. apply NilZero.isi; destruct z; simpl; try discriminate;
      intros [= Hnil]; now apply Unsigned.to_uint_nonnil in Hnil. }
  apply (f_equal NilZero.int_of_string) in H.
  rewrite !parse in H. now injection H.
Qed.

Lemma str_eqb (a b : Z) : String.eqb (str a) (str b) = (a =? b).
Proof.
  destruct (Z.eqb_spec a b) as [-> | Hne].
  - apply String.eqb_refl.
  - apply String.eqb_neq. intros H. now apply str_inj in H.
Qed.

Lemma basename_from_app (p q acc : string) :
  basename_from (p ++ q) acc = basename_from q (basename_from p acc).
Proof.
  revert acc. induction p as [| c p IH]; intros acc; simpl.
  - reflexivity.
  - destruct (Ascii.eqb c "/"); apply IH.
Qed.

Lemma getitem_in_range {A : Type} (l : list A) (i : Z) :
  0 <= i < Z.of_nat (List.length l) -> exists a, getitem l i = Ok a.
Proof.
  intros Hi. unfold getitem.
  replace (i <? 0) with false by (symmetry; apply Z.ltb_ge; lia).
  replace (0 <=? i) with true by (symmetry; apply Z.leb_le; lia).
  replace (i <? Z.of_nat (List.length l)) with true
    by (symmetry; apply Z.ltb_lt; lia).
  simpl. destruct (nth_error l (Z.to_nat i)) eqn:Hnth.
  - now exists a.
  - apply nth_error_None in Hnth. lia.
Qed.

Lemma randint_range (a b : Z) (w : world) :
  a <= b ->
  exists k w', randint a b w = (Ok k, w') /\ a <= k <= b
               /\ events w' = events w.
Proof.
  intros Hab. unfold randint.
  replace (b <? a) with false by (symmetry; apply Z.ltb_ge; lia).
  destruct (entropy w) as [| e es].
  - exists a, w. repeat split; lia.
  - eexists _, _. split; [reflexivity |]. simpl. split; [| reflexivity].
    pose proof (Z.mod_pos_bound (Z.of_nat e) (b - a + 1)). lia.
Qed.

(** ** Facts about the caption lookup *)

Lemma last_cons_default {A : Type} (l : list A) (x d d' : A) :
  last (x :: l) d = last (x :: l) d'.
Proof.
  revert x. induction l as [| y l IH]; intros x.
  - reflexivity.
  - change (last (y :: l) d = last (y :: l) d'). apply IH.
Qed.

Lemma last_assigned_last (l : list (list string)) :
  Data.last_assigned l = last l [].
Proof.
  unfold Data.last_assigned. generalize (@nil string) as d.
  induction l as [| c l IH]; intros d.
  - reflexivity.
  - simpl fold_left. rewrite IH. destruct l as [| x l].
    + reflexivity.
    + change (last (c :: x :: l) d) with (last (x :: l) d).
      apply last_cons_default.
Qed.

Lemma image_captions_matching (l : list anno) (n : Z) :
  Data.image_captions (Records l) (str n) = map captions (matching n l).
Proof.
  unfold Data.image_captions, matching. simpl. f_equal.
  apply filter_ext. intros a. apply str_eqb.
Qed.

Lemma image_captions_EmptyDict (image_id_ : string) :
  Data.image_captions EmptyDict image_id_ = [].
Proof. reflexivity. Qed.

Lemma matching_none (n : Z) (l : list anno) :
  (forall a, In a l -> image_id a <> n) -> matching n l = [].
Proof.
  intros Hno. unfold matching.
  induction l as [| a l IH]; simpl; [reflexivity |].
  destruct (Z.eqb_spec (image_id a) n) as [Heq | _].
  - exfalso. apply (Hno a); [now left | assumption].
  - apply IH. intros b Hb. apply Hno. now right.
Qed.

Lemma matching_last (n : Z) (pre post : list anno) (r : anno) :
  image_id r = n ->
  (forall a, In a post -> image_id a <> n) ->
  matching n (pre ++ r :: post) = (matching n pre ++ [r])%list.
Proof.
  intros Hr Hpost. unfold matching.
  rewrite filter_app. simpl.
  replace (image_id r =? n) with true by (symmetry; now apply Z.eqb_eq).
  fold (matching n post). now rewrite (matching_none n post Hpost).
Qed.

(** ** How an access runs *)

Section Access.

Variable E : env.

(** An access whose lookup finds nothing prints the warning and stops
    in [random.randint(0, -1)]. *)
Lemma getitem_uncaptioned (self : Data.obj) (idx : Z) (w : world)
    (path : string) (img : image) (n : Z) :
  getitem (Data._image_paths self) idx = Ok path ->
  imread (fs E) path = Some img ->
  int (split_dot_0 (basename path)) = Ok n ->
  Data.image_captions (Data._captions self) (str n) = [] ->
  Data.__getitem__ E idx (self, w)
  = (Raise ValueError,
     (self, printed w (Data.no_captions_warning (str n)))).
Proof.
  intros Hpath Himg Hid Hnone.
  unfold Data.__getitem__, bind, get_self, lift_res, io, ret, raise.
  simpl. rewrite Hpath, Himg, Hid, Hnone. reflexivity.
Qed.

(** An access whose lookup ends on a non-empty caption list draws an
    index in range, tokenizes the stripped caption at that index and
    then transforms the image. *)
Lemma getitem_captioned (self : Data.obj) (idx : Z) (w : world)
    (path : string) (img : image) (n : Z) (caps : list string) :
  getitem (Data._image_paths self) idx = Ok path ->
  imread (fs E) path = Some img ->
  int (split_dot_0 (basename path)) = Ok n ->
  Data.image_captions (Data._captions self) (str n) <> [] ->
  Data.last_assigned
    (Data.image_captions (Data._captions self) (str n)) = caps ->
  caps <> [] ->
  exists (k : Z) (w1 : world) (caption : string),
    randint 0 (Z.of_nat (List.length caps) - 1) w = (Ok k, w1)
    /\ getitem caps k = Ok caption
    /\ Data.__getitem__ E idx (self, w)
       = let '(r, w2) := apply_transform E (Data._transform self) img
                           (tokenized w1 (strip caption)) in
         (match r with
          | Ok img' => Ok (img', tokenizer E (strip caption))
          | Raise e => Raise e
          end, (self, w2)).
Proof.
  intros Hpath Himg Hid Hsome Hlast Hcaps.
  assert (Hlen : 0 <= Z.of_nat (List.length caps) - 1).
  { destruct caps; [congruence | simpl List.length; lia]. }
  destruct (randint_range 0 _ w Hlen) as (k & w1 & Hrand & Hk & _).
  destruct (getitem_in_range caps k) as [caption Hcaption]; [lia |].
  exists k, w1, caption. split; [assumption |]. split; [assumption |].
  unfold Data.__getitem__, bind, get_self, lift_res, io, ret, raise.
  simpl. rewrite Hpath, Himg, Hid.
  destruct (Data.image_captions (Data._captions self) (str n)) eqn:Hics;
    [congruence |].
  rewrite Hlast. simpl. rewrite Hrand, Hcaption.
  unfold tokenize, bind, emit, ret, tokenized. simpl.
  destruct (apply_transform E (Data._transform self) img _) as [[img' | e] w2];
    reflexivity.
Qed.

End Access.

(** ** Accesses without a caption record *)

(** C1, as amended: an access to an image whose integer id matches no
    caption record resolves an empty caption list, prints the warning and
    then fails with [ValueError], raised by [random.randint(0, -1)] while
    selecting a caption; the tokenizer and the transform have not been
    called, and the provider is as it was. *)
Theorem getitem_without_record_raises_ValueError
    (E : env) (self : Data.obj) (idx : Z) (w : world)
    (path : string) (img : image) (n : Z) :
  getitem (Data._image_paths self) idx = Ok path ->
  imread (fs E) path = Some img ->
  int (split_dot_0 (basename path)) = Ok n ->
  (forall a, In a (iter (Data._captions self)) -> image_id a <> n) ->
  Data.image_captions (Data._captions self) (str n) = []
  /\ Data.__getitem__ E idx (self, w)
     = (Raise ValueError,
        (self, printed w (Data.no_captions_warning (str n)))).
Proof.
  intros Hpath Himg Hid Hnone.
  assert (Hempty : Data.image_captions (Data._captions self) (str n) = []).
  { destruct (Data._captions self) as [l |]; simpl in Hnone.
    - rewrite image_captions_matching, (matching_none n l Hnone). reflexivity.
    - apply image_captions_EmptyDict. }
  split; [assumption |].
  now apply getitem_uncaptioned with (path := path) (img := img).
Qed.

Lemma getitem_without_record_raises_ValueError_witness :
  Data.image_captions
    (Data._captions (Example.data_of Example.fs_other)) (str 123) = []
  /\ Data.__getitem__ (Example.env_of Example.fs_other) 0
       (Example.data_of Example.fs_other, Example.w0)
     = (Raise ValueError,
        (Example.data_of Example.fs_other,
         printed Example.w0 (Data.no_captions_warning (str 123)))).
Proof.
  apply (getitem_without_record_raises_ValueError
           (Example.env_of Example.fs_other)
           (Example.data_of Example.fs_other) 0 Example.w0
Example.dog_path Example.dog_image 123).
  - reflexivity.
  - reflexivity.
  - reflexivity.
  - intros a [<- | []]. discriminate.
Defined.

(** C1, as stated, fails: with a caption file that only describes image 7,
    the access to image 123 matches no record and ends in an exception
    that is not of the [IndexError] class. *)
Lemma getitem_without_record_not_IndexError :
  (forall a,
      In a (iter (Data._captions (Example.data_of Example.fs_other))) ->
      image_id a <> 123)
  /\ exists e s,
      Data.__getitem__ (Example.env_of Example.fs_other) 0
        (Example.data_of Example.fs_other, Example.w0) = (Raise e, s)
      /\ is_IndexError e = false.
Proof.
  split.
  - intros a [<- | []]. discriminate.
  - eexists _, _. split; [vm_compute; reflexivity | reflexivity].
Qed.


(** On the fallback store every access that reaches the lookup misses,
    prints the warning and raises [ValueError]. *)
Lemma getitem_on_empty_dict (E : env) (self : Data.obj) (idx : Z) (w : world)
    (path : string) (img : image) (n : Z) :
  Data._captions self = EmptyDict ->
  getitem (Data._image_paths self) idx = Ok path ->
  imread (fs E) path = Some img ->
  int (split_dot_0 (basename path)) = Ok n ->
  Data.__getitem__ E idx (self, w)
  = (Raise ValueError, (self, printed w (Data.no_captions_warning (str n)))).
Proof.
  intros Hstore Hpath Himg Hid.
  apply getitem_uncaptioned with (path := path) (img := img); try assumption.
  rewrite Hstore. apply image_captions_EmptyDict.
Qed.

(** C2, at a root without caption file: the construction succeeds, prints
    its message and keeps the empty dict; the lookup of the one image
    finds nothing and prints the warning; the access then raises
    [ValueError] instead of returning. *)
Theorem missing_caption_file_access_raises :
  Data.__init__ (Example.env_of Example.fs_bare) Example.root "train2017"
    (Some "captions") None Example.w0
  = (Ok (Example.data_of Example.fs_bare),
     printed Example.w0 "Caption file for train2017 not found.")
  /\ Data._captions (Example.data_of Example.fs_bare) = EmptyDict
  /\ Data.image_captions
       (Data._captions (Example.data_of Example.fs_bare)) (str 123) = []
  /\ Data.__getitem__ (Example.env_of Example.fs_bare) 0
       (Example.data_of Example.fs_bare, Example.w0)
     = (Raise ValueError,
        (Example.data_of Example.fs_bare,
         printed Example.w0
           "No captions found for image ID 123. Returning an empty caption.")).
Proof.
  repeat split; vm_compute; reflexivity.
Qed.

(** ** Duplicate records *)

(** C3: when two or more records of the caption list carry the integer id
    of the accessed image, the caption list an access resolves is the one
    of the last such record in file order; the access draws its caption
    from that list. *)
Theorem last_matching_record_wins
    (E : env) (self : Data.obj) (idx : Z) (w : world)
    (path : string) (img : image) (n : Z)
    (l pre post : list anno) (r : anno) :
  Data._captions self = Records l ->
  l = (pre ++ r :: post)%list ->
  image_id r = n ->
  (forall a, In a post -> image_id a <> n) ->
  (2 <= List.length (matching n l))%nat ->
  getitem (Data._image_paths self) idx = Ok path ->
  imread (fs E) path = Some img ->
  int (split_dot_0 (basename path)) = Ok n ->
  Data.last_assigned (Data.image_captions (Data._captions self) (str n))
  = captions r
  /\ (captions r <> [] ->
      exists (k : Z) (w1 : world) (caption : string),
        randint 0 (Z.of_nat (List.length (captions r)) - 1) w = (Ok k, w1)
        /\ getitem (captions r) k = Ok caption
        /\ Data.__getitem__ E idx (self, w)
           = let '(res_, w2) := apply_transform E (Data._transform self) img
                                  (tokenized w1 (strip caption)) in
             (match res_ with
              | Ok img' => Ok (img', tokenizer E (strip caption))
              | Raise e => Raise e
              end, (self, w2))).
Proof.
  intros Hstore Hl Hr Hpost _ Hpath Himg Hid.
  assert (Hics : Data.image_captions (Data._captions self) (str n)
                 = (map captions (matching n pre) ++ [captions r])%list).
  { rewrite Hstore, image_captions_matching, Hl.
    rewrite (matching_last n pre post r Hr Hpost).
    now rewrite map_app. }
  assert (Hlast : Data.last_assigned
                    (Data.image_captions (Data._captions self) (str n))
                  = captions r).
  { rewrite Hics, last_assigned_last. apply last_last. }
  split; [assumption |].
  intros Hcaps.
  apply getitem_captioned with (path := path) (n := n); try assumption.
  rewrite Hics. now destruct (map captions (matching n pre)).
Qed.

Lemma last_matching_record_wins_witness :
  Data.last_assigned
    (Data.image_captions
       (Data._captions (Example.data_of Example.fs_twice)) (str 123))
  = ["second"]
  /\ (["second"] <> [] ->
      exists (k : Z) (w1 : world) (caption : string),
        randint 0 (Z.of_nat (List.length ["second"]) - 1) Example.w0
        = (Ok k, w1)
        /\ getitem ["second"] k = Ok caption
        /\ Data.__getitem__ (Example.env_of Example.fs_twice) 0
             (Example.data_of Example.fs_twice, Example.w0)
           = let '(res_, w2) :=
               apply_transform (Example.env_of Example.fs_twice)
                 (Data._transform (Example.data_of Example.fs_twice))
Example.dog_image (tokenized w1 (strip caption)) in
             (match res_ with
              | Ok img' =>
 Ok (img', tokenizer (Example.env_of Example.fs_twice)
             (strip caption))
              | Raise e => Raise e
              end, (Example.data_of Example.fs_twice, w2))).
Proof.
  apply (last_matching_record_wins
           (Example.env_of Example.fs_twice)
           (Example.data_of Example.fs_twice) 0 Example.w0
Example.dog_path Example.dog_image 123
[mkAnno 123 ["first"]; mkAnno 7 ["a cat"]; mkAnno 123 ["second"]]
[mkAnno 123 ["first"]; mkAnno 7 ["a cat"]] []
(mkAnno 123 ["second"])).
  - reflexivity.
  - reflexivity.
  - reflexivity.
  - intros a [].
  - simpl. lia.
  - reflexivity.
  - reflexivity.
  - reflexivity.
Defined.

(** ** The worked example *)

Lemma randint_0_0 (w : world) :
  exists w1, randint 0 0 w = (Ok 0, w1) /\ events w1 = events w.
Proof.
  unfold randint. change (0 <? 0) with false. cbv iota.
  destruct (entropy w) as [| e es] eqn:Hent.
  - now exists w.
  - exists (mkWorld (events w) es). split; [| reflexivity].
    change (0 - 0 + 1) with 1. now rewrite Z.mod_1_r.
Qed.

(** C6: under a root with image [train2017/000123.jpg] and the caption
    file [[{"image_id": 123, "captions": ["a dog"]}]], the provider is
    built on that record, the stem ["000123"] and the record id meet as
    the integer 123, and whatever the random source holds the access
    tokenizes ["a dog"] and returns its token sequence next to the
    transformed image: the image the steps of the transform, run in order
    on the decoded image, give back.  With no transform, or an empty one,
    the decoded image itself is returned and no transform call is made;
    when a step raises, so does the access. *)
Theorem get_a_dog
    (E : env) (root : string) (tr : option Compose) (idx : Z) (img : image)
    (w w1 : world) :
  json_load (fs E) (root ++ "/captions/train_captions.json")
  = Loaded [mkAnno 123 ["a dog"]] ->
  getitem (glob (fs E) (root ++ "/train2017/*.jpg")) idx
  = Ok (root ++ "/train2017/000123.jpg") ->
  imread (fs E) (root ++ "/train2017/000123.jpg") = Some img ->
  exists d : Data.obj,
    Data.__init__ E root "train2017" (Some "captions") tr w = (Ok d, w)
    /\ int (split_dot_0 (basename (root ++ "/train2017/000123.jpg"))) = Ok 123
    /\ Data.image_captions (Data._captions d) (str 123) = [["a dog"]]
    /\ exists w2 : world,
        randint 0 0 w1 = (Ok 0, w2)
        /\ Data.__getitem__ E idx (d, w1)
           = match tr with
             | Some (t :: ts) =>
                 let '(res_, w3) :=
                   compose_call E (t :: ts) img
                     (transforming (tokenized w2 "a dog") img) in
                 (match res_ with
                  | Ok img' => Ok (img', tokenizer E "a dog")
                  | Raise e => Raise e
                  end, (d, w3))
             | _ => (Ok (img, tokenizer E "a dog"), (d, tokenized w2 "a dog"))
             end.
Proof.
  intros Hjson Hpath Himg.
  assert (Hid : int (split_dot_0 (basename (root ++ "/train2017/000123.jpg")))
                = Ok 123).
  { unfold basename. rewrite basename_from_app. reflexivity. }
  pose (d := Data.mk root (glob (fs E) (root ++ "/train2017/*.jpg"))
                    (root ++ "/captions/train_captions.json")
                    (root ++ "/captions/val_captions.json")
                    tr (Records [mkAnno 123 ["a dog"]])).
  exists d. split.
  { unfold Data.__init__, bind. cbn. rewrite Hjson. reflexivity. }
  split; [assumption |]. split; [reflexivity |].
  destruct (getitem_captioned E d idx w1 _ img 123 ["a dog"] Hpath Himg Hid)
    as (k & w2 & caption & Hrand & Hcaption & Hget);
    [discriminate | reflexivity | discriminate |].
  change (Z.of_nat (List.length ["a dog"]) - 1) with 0 in Hrand.
  destruct (randint_0_0 w1) as (w2' & Hzero & _).
  rewrite Hzero in Hrand. injection Hrand as <- <-.
  injection Hcaption as <-.
  exists w2'. split; [exact Hzero |].
  subst d. destruct tr as [[| t ts] |]; exact Hget.
Qed.

Lemma get_a_dog_witness :
  exists d : Data.obj,
    Data.__init__ (Example.env_of Example.fs_dog) Example.root "train2017"
      (Some "captions")
      (Some [Resize 2 2; HorizontalFlip (1 # 2); MyPreProcessing; ToTensorV2])
      Example.w0
    = (Ok d, Example.w0)
    /\ int (split_dot_0 (basename (Example.root ++ "/train2017/000123.jpg")))
       = Ok 123
    /\ Data.image_captions (Data._captions d) (str 123) = [["a dog"]]
    /\ exists w2 : world,
        randint 0 0 Example.w0 = (Ok 0, w2)
        /\ Data.__getitem__ (Example.env_of Example.fs_dog) 0 (d, Example.w0)
           = let '(res_, w3) :=
               compose_call (Example.env_of Example.fs_dog)
                 [Resize 2 2; HorizontalFlip (1 # 2); MyPreProcessing;
                  ToTensorV2]
                 Example.dog_image
                 (transforming (tokenized w2 "a dog") Example.dog_image) in
             (match res_ with
              | Ok img' =>
                  Ok (img', tokenizer (Example.env_of Example.fs_dog) "a dog")
              | Raise e => Raise e
              end, (d, w3)).
Proof.
  apply (get_a_dog (Example.env_of Example.fs_dog) Example.root
           (Some [Resize 2 2; HorizontalFlip (1 # 2); MyPreProcessing;
                  ToTensorV2])
           0 Example.dog_image Example.w0 Example.w0).
  - reflexivity.
  - reflexivity.
  - reflexivity.
Defined.

(** ** The provider is read-only *)

Section Frame.

Context {O : Type}.

Lemma preserves_ret {A : Type} (a : A) : preserves_self (O := O) (ret a).
Proof. intros s. reflexivity. Qed.

Lemma preserves_raise {A : Type} (e : exn) :
  preserves_self (O := O) (A := A) (raise e).
Proof. intros s. reflexivity. Qed.

Lemma preserves_lift_res {A : Type} (r : res A) :
  preserves_self (O := O) (lift_res r).
Proof. intros s. reflexivity. Qed.

Lemma preserves_get_self : preserves_self (O := O) get_self.
Proof. intros s. reflexivity. Qed.

Lemma preserves_io {A : Type} (m : M world A) :
  preserves_self (O := O) (io m).
Proof. intros s. unfold io. now destruct (m (snd s)). Qed.

Lemma preserves_bind {A B : Type}
    (m : M (O * world) A) (k : A -> M (O * world) B) :
  preserves_self m -> (forall a, preserves_self (k a)) ->
  preserves_self (bind m k).
Proof.
  intros Hm Hk s. unfold bind.
  specialize (Hm s). destruct (m s) as [[a | e] s']; simpl in Hm.
  - now rewrite Hk.
  - assumption.
Qed.

End Frame.

Create HintDb frame.

#[local] Hint Resolve preserves_ret preserves_raise preserves_lift_res
  preserves_get_self preserves_io : frame.

Ltac frame_step :=
  repeat (apply preserves_bind; [| intros ?]);
  try match goal with
      | |- preserves_self (match ?x with _ => _ end) => destruct x
      end;
  auto with frame.

Lemma Data_test_getitem_preserves (E : env) (idx : Z) :
  preserves_self (Data_test.__getitem__ E idx).
Proof. unfold Data_test.__getitem__. repeat frame_step. Qed.

(** C9: whatever the index and however the access ends, [get] returns
    the provider it was called on: the caption set, the list of image
    paths and the transform (and the other fields) after the call are the
    ones before it. *)
Theorem getitem_leaves_provider_unchanged
    (E : env) (idx : Z) (self : Data.obj) (w : world) :
  let self' := fst (snd (Data.__getitem__ E idx (self, w))) in
  self' = self
  /\ Data._captions self' = Data._captions self
  /\ Data._image_paths self' = Data._image_paths self
  /\ Data._transform self' = Data._transform self.
Proof.
  assert (Hframe : preserves_self (Data.__getitem__ E idx)).
  { unfold Data.__getitem__. repeat frame_step. }
  intros self'. assert (Hself : self' = self) by apply (Hframe (self, w)).
  rewrite Hself. repeat split.
Qed.

(** ** Collation *)

Lemma stack_uniform (images : list image) (s : list nat) :
  images <> [] ->
  (forall i, In i images -> shape i = s) ->
  Dataloader.stack images
  = Ok (mkTensor (List.length images :: s) (List.concat (map data images))).
Proof.
  intros Hne Hshape. unfold Dataloader.stack.
  destruct images as [| i0 rest]; [congruence |].
  assert (Hall : forallb (fun i => if list_eq_dec Nat.eq_dec (shape i) (shape i0)
                                   then true else false) (i0 :: rest) = true).
  { apply forallb_forall. intros i Hi.
    destruct (list_eq_dec Nat.eq_dec (shape i) (shape i0)) as [_ | Hdiff];
      [reflexivity |].
    exfalso. apply Hdiff.
    rewrite (Hshape i Hi), (Hshape i0); [reflexivity | now left]. }
  rewrite Hall, (Hshape i0); [reflexivity | now left].
Qed.

Lemma max_len_bound (seqs : list (list Z)) (c : list Z) :
  In c seqs -> (List.length c <= Dataloader.max_len seqs)%nat.
Proof.
  induction seqs as [| d seqs IH]; simpl; intros Hin; [contradiction |].
  destruct Hin as [-> | Hin]; [lia |].
  specialize (IH Hin). lia.
Qed.

Lemma max_len_attained (seqs : list (list Z)) :
  seqs <> [] ->
  exists c, In c seqs /\ List.length c = Dataloader.max_len seqs.
Proof.
  induction seqs as [| d seqs IH]; [congruence | intros _].
  destruct seqs as [| d' seqs].
  - exists d. split; [now left | simpl; lia].
  - destruct IH as (c & Hin & Hc); [discriminate |].
    change (Dataloader.max_len (d :: d' :: seqs))
      with (Nat.max (List.length d) (Dataloader.max_len (d' :: seqs))).
    destruct (Nat.max_spec (List.length d) (Dataloader.max_len (d' :: seqs)))
      as [[_ ->] | [_ ->]].
    + exists c. split; [now right | assumption].
    + exists d. split; [now left | reflexivity].
Qed.

(** Cutting row [i] out of the concatenation of rows of one width. *)
Lemma row_of_concat {A : Type} (rows : list (list A)) (width i : nat)
    (r : list A) :
  Forall (fun x => List.length x = width) rows ->
  nth_error rows i = Some r ->
  firstn width (skipn (i * width) (List.concat rows)) = r.
Proof.
  intros Hwidth. revert i.
  induction Hwidth as [| x rows Hx _ IH]; intros i Hnth.
  - destruct i; discriminate.
  - destruct i as [| i]; simpl in Hnth.
    + injection Hnth as <-. simpl.
      rewrite firstn_app, <- Hx, Nat.sub_diag, firstn_all. simpl.
      apply List.app_nil_r.
    + simpl List.concat. simpl Nat.mul. subst width.
      rewrite skipn_app, skipn_all2 by lia.
      replace (List.length x + i * List.length x - List.length x)%nat
        with (i * List.length x)%nat by lia.
      simpl. now apply IH.
Qed.

Lemma concat_length_uniform {A : Type} (rows : list (list A)) (width : nat) :
  Forall (fun x => List.length x = width) rows ->
  List.length (List.concat rows) = (List.length rows * width)%nat.
Proof.
  induction 1 as [| x rows Hx _ IH]; simpl; [reflexivity |].
  rewrite length_app, IH, Hx. reflexivity.
Qed.

Lemma padded_rows_width (seqs : list (list Z)) (v : Z) :
  Forall (fun x => List.length x = Dataloader.max_len seqs)
         (map (fun c => c ++ repeat v (Dataloader.max_len seqs - List.length c))%list
              seqs).
Proof.
  apply Forall_map, Forall_forall. intros c Hc.
  rewrite length_app, repeat_length.
  pose proof (max_len_bound seqs c Hc). lia.
Qed.

(** What [_collate_fn] returns when it returns. *)
Lemma collate_fn_Ok (batch : list (image * list Z))
    (images : image) (caps : tensor Z) :
  Dataloader._collate_fn batch = Ok (images, caps) ->
  Dataloader.stack (map fst batch) = Ok images
  /\ caps = mkTensor [List.length batch; Dataloader.max_len (map snd batch)]
              (List.concat
                 (map (fun c =>
                         c ++ repeat 0
                                (Dataloader.max_len (map snd batch)
                                 - List.length c))%list
                      (map snd batch))).
Proof.
  unfold Dataloader._collate_fn, Dataloader.pad_sequence.
  destruct batch as [| p batch]; [discriminate |].
  destruct (Dataloader.stack (map fst (p :: batch))) as [images' | e];
    [| discriminate].
  cbn [map]. intros [= <- <-]. split; [reflexivity |].
  cbn [List.length map]. now rewrite length_map.
Qed.

Lemma pad_sequence_Ok (seqs : list (list Z)) (v : Z) :
  seqs <> [] ->
  Dataloader.pad_sequence seqs v
  = Ok (mkTensor [List.length seqs; Dataloader.max_len seqs]
          (List.concat
             (map (fun c =>
                     c ++ repeat v (Dataloader.max_len seqs - List.length c))%list
                  seqs))).
Proof. destruct seqs; [congruence | reflexivity]. Qed.

Lemma collate_fn_nonempty (batch : list (image * list Z)) :
  batch <> [] ->
  Dataloader._collate_fn batch
  = match Dataloader.stack (map fst batch) with
    | Ok images' =>
        match Dataloader.pad_sequence (map snd batch) 0 with
        | Ok captions' => Ok (images', captions')
        | Raise e => Raise e
        end
    | Raise e => Raise e
    end.
Proof. destruct batch; [congruence | reflexivity]. Qed.

(** C4: a non-empty batch whose images share one shape (what the fixed
    resize of the pipeline hands over) collates to an image batch and a
    caption batch whose leading dimension is the batch length; the second
    dimension of the caption batch is the length of the longest caption
    of this very batch, and the caption batch is rectangular. *)
Theorem collate_fn_shapes (batch : list (image * list Z)) (s : list nat) :
  batch <> [] ->
  (forall p, In p batch -> shape (fst p) = s) ->
  exists (images : image) (caps : tensor Z),
    Dataloader._collate_fn batch = Ok (images, caps)
    /\ nth 0 (shape images) 0%nat = List.length batch
    /\ nth 0 (shape caps) 0%nat = List.length batch
    /\ nth 1 (shape caps) 0%nat = Dataloader.max_len (map snd batch)
    /\ (forall c, In c (map snd batch) ->
                  (List.length c <= nth 1 (shape caps) 0)%nat)
    /\ (exists c, In c (map snd batch)
                  /\ List.length c = nth 1 (shape caps) 0%nat)
    /\ List.length (shape caps) = 2%nat
    /\ List.length (data caps)
       = (nth 0 (shape caps) 0 * nth 1 (shape caps) 0)%nat.
Proof.
  intros Hne Hshape.
  assert (Hstack : Dataloader.stack (map fst batch)
                   = Ok (mkTensor (List.length (map fst batch) :: s)
                                  (List.concat (map data (map fst batch))))).
  { apply stack_uniform.
    - destruct batch; [congruence | discriminate].
    - intros i Hi. apply in_map_iff in Hi as (p & <- & Hp). now apply Hshape. }
  assert (Hmap : map snd batch <> []) by (destruct batch; [congruence | discriminate]).
  rewrite (collate_fn_nonempty batch Hne), Hstack.
  rewrite (pad_sequence_Ok (map snd batch) 0 Hmap).
  eexists _, _. split; [reflexivity |].
  cbn [shape data nth]. rewrite !length_map.
  repeat split.
  - apply max_len_bound.
  - now apply max_len_attained.
  - rewrite (concat_length_uniform _ _ (padded_rows_width (map snd batch) 0)).
    now rewrite !length_map.
Qed.

Lemma collate_fn_shapes_witness :
  exists (images : image) (caps : tensor Z),
    Dataloader._collate_fn Example.batch2 = Ok (images, caps)
    /\ nth 0 (shape images) 0%nat = List.length Example.batch2
    /\ nth 0 (shape caps) 0%nat = List.length Example.batch2
    /\ nth 1 (shape caps) 0%nat = Dataloader.max_len (map snd Example.batch2)
    /\ (forall c, In c (map snd Example.batch2) ->
                  (List.length c <= nth 1 (shape caps) 0)%nat)
    /\ (exists c, In c (map snd Example.batch2)
                  /\ List.length c = nth 1 (shape caps) 0%nat)
    /\ List.length (shape caps) = 2%nat
    /\ List.length (data caps)
       = (nth 0 (shape caps) 0 * nth 1 (shape caps) 0)%nat.
Proof.
  apply (collate_fn_shapes Example.batch2 [3; 1; 1]%nat).
  - discriminate.
  - intros p [<- | [<- | []]]; reflexivity.
Defined.

(** C5: in every collated batch, row [i] of the caption batch is the
    token sequence of sample [i] followed by zeros only: its first
    [len(source)] entries are the source, unchanged, and every entry after
    them is the padding value 0. *)
Theorem collate_fn_pads_right_with_zero
    (batch : list (image * list Z)) (images : image) (caps : tensor Z)
    (i : nat) (img : image) (source : list Z) :
  Dataloader._collate_fn batch = Ok (images, caps) ->
  nth_error batch i = Some (img, source) ->
  row caps i
  = (source ++ repeat 0 (nth 1 (shape caps) 0%nat - List.length source))%list
  /\ firstn (List.length source) (row caps i) = source
  /\ Forall (fun v => v = 0) (skipn (List.length source) (row caps i)).
Proof.
  intros Hcollate Hnth.
  apply collate_fn_Ok in Hcollate as [_ ->].
  set (n := Dataloader.max_len (map snd batch)).
  assert (Hrow : row (mkTensor [List.length batch; n]
                        (List.concat
                           (map (fun c => c ++ repeat 0 (n - List.length c))%list
                                (map snd batch)))) i
                 = (source ++ repeat 0 (n - List.length source))%list).
  { unfold row. cbn [shape data nth].
    apply row_of_concat.
    - apply padded_rows_width.
    - rewrite nth_error_map, nth_error_map, Hnth. reflexivity. }
  rewrite Hrow. cbn [shape nth]. split; [reflexivity |]. split.
  - rewrite firstn_app, Nat.sub_diag, firstn_all. simpl. apply List.app_nil_r.
  - rewrite skipn_app, skipn_all, Nat.sub_diag. simpl.
    apply Forall_forall. intros v Hv. now apply repeat_spec in Hv.
Qed.

Lemma collate_fn_pads_right_with_zero_witness :
  row (mkTensor [2; 5]%nat [101; 7; 102; 0; 0; 101; 7; 8; 9; 102]) 0
  = ([101; 7; 102]
       ++ repeat 0 (nth 1 (shape (mkTensor [2; 5]%nat
                                    [101; 7; 102; 0; 0; 101; 7; 8; 9; 102]))
                        0%nat
                    - List.length [101; 7; 102]))%list
  /\ firstn (List.length [101; 7; 102])
       (row (mkTensor [2; 5]%nat [101; 7; 102; 0; 0; 101; 7; 8; 9; 102]) 0)
     = [101; 7; 102]
  /\ Forall (fun v => v = 0)
       (skipn (List.length [101; 7; 102])
          (row (mkTensor [2; 5]%nat [101; 7; 102; 0; 0; 101; 7; 8; 9; 102]) 0)).
Proof.
  apply (collate_fn_pads_right_with_zero Example.batch2
           (mkTensor [2; 3; 1; 1]%nat
              [1 # 1; 2 # 1; 3 # 1; 4 # 1; 5 # 1; 6 # 1]%Q)
           (mkTensor [2; 5]%nat [101; 7; 102; 0; 0; 101; 7; 8; 9; 102])
           0%nat Example.img_a [101; 7; 102]).
  - reflexivity.
  - reflexivity.
Defined.

(** Images of different shapes do not stack: the collation raises. *)
Lemma collate_fn_ragged_images :
  Dataloader._collate_fn
    [(mkTensor [3; 1; 1]%nat [1 # 1; 2 # 1; 3 # 1]%Q, [101; 102]);
     (mkTensor [3; 1; 2]%nat
        [1 # 1; 2 # 1; 3 # 1; 4 # 1; 5 # 1; 6 # 1]%Q, [101; 102])]
  = Raise RuntimeError.
Proof. reflexivity. Qed.

(** ** The transform of a split *)

Lemma compose_call_app (E : env) (ts1 ts2 : Compose) (img : image) (w : world) :
  compose_call E (ts1 ++ ts2)%list img w
  = bind (compose_call E ts1 img) (compose_call E ts2) w.
Proof.
  revert img w. induction ts1 as [| t ts1 IH]; intros img w.
  - reflexivity.
  - cbn [compose_call app]. unfold bind.
    destruct (step E t img w) as [[img' | e] w']; [| reflexivity].
    rewrite IH. reflexivity.
Qed.

(** With a size of at least one, the transform is the seven steps at the
    probability the table gives. *)
Lemma transform_Ok (self : Dataloader.obj) (image_split : string) (p : Q) :
  1 <= Dataloader._size self ->
  Dataloader.dict_getitem (Dataloader._prob_aug self) image_split = Ok p ->
  Dataloader._transform self image_split
  = Ok [Resize (Dataloader._size self) (Dataloader._size self);
        RandomBrightnessContrast p; HueSaturationValue p;
        HorizontalFlip p; VerticalFlip p; MyPreProcessing; ToTensorV2].
Proof.
  intros Hsize Hp. unfold Dataloader._transform. rewrite Hp.
  now replace (Dataloader._size self <? 1) with false
    by (symmetry; apply Z.ltb_ge; lia).
Qed.

(** A size below one is refused by the resize, for every split of the
    table. *)
Lemma transform_bad_size (self : Dataloader.obj) (image_split : string) (p : Q) :
  Dataloader._size self < 1 ->
  Dataloader.dict_getitem (Dataloader._prob_aug self) image_split = Ok p ->
  Dataloader._transform self image_split = Raise ValueError.
Proof.
  intros Hsize Hp. unfold Dataloader._transform. rewrite Hp.
  now replace (Dataloader._size self <? 1) with true
    by (symmetry; apply Z.ltb_lt; lia).
Qed.

(** C8: for each of the three splits and every size of at least one, the
    transform is the same seven steps: the resize to [size] by [size],
    brightness/contrast, hue/saturation and the two flips at the
    probability of the split (one half for [train2017], zero for
    [val2017] and [test2017]), then the normalisation and the tensor
    conversion; run on an image, the pipeline divides every entry of the
    augmented image by 255, casts it to float32 and hands the result to
    the tensor conversion, whatever the split. *)
Theorem transform_of_split
    (batch_size_ size : Z) (shuffle_ : bool) (subset : Z) (image_split : string) :
  In image_split splits ->
  1 <= size ->
  let p := if String.eqb image_split "train2017" then (1 # 2)%Q else (0 # 1)%Q in
  let augmentations :=
    [Resize size size; RandomBrightnessContrast p; HueSaturationValue p;
     HorizontalFlip p; VerticalFlip p] in
  Dataloader._transform
    (Dataloader.__init__ batch_size_ size shuffle_ subset) image_split
  = Ok (augmentations ++ [MyPreProcessing; ToTensorV2])%list
  /\ forall (E : env) (img : image) (w : world),
      compose_call E (augmentations ++ [MyPreProcessing; ToTensorV2])%list img w
      = (augmented <- compose_call E augmentations img ;;
         step E ToTensorV2
           (mkTensor (shape augmented)
              (map (fun v => astype_float32 E (v / 255)%Q) (data augmented)))) w.
Proof.
  intros Hsplit Hsize p augmentations. split.
  - destruct Hsplit as [<- | [<- | [<- | []]]];
      now apply (transform_Ok
                   (Dataloader.__init__ batch_size_ size shuffle_ subset)).
  - intros E img w. rewrite compose_call_app. unfold bind.
    destruct (compose_call E augmentations img w) as [[augmented | e] w'];
      [| reflexivity].
    cbn [compose_call step]. unfold bind, ret, MyPreProcessing_call.
    destruct (albumentations E ToTensorV2 _ (entropy w')) as [[out | e] es];
      reflexivity.
Qed.

Lemma transform_of_split_witness :
  let p := if String.eqb "val2017" "train2017" then (1 # 2)%Q else (0 # 1)%Q in
  let augmentations :=
    [Resize 224 224; RandomBrightnessContrast p; HueSaturationValue p;
     HorizontalFlip p; VerticalFlip p] in
  Dataloader._transform (Dataloader.__init__ 8 224 true 0) "val2017"
  = Ok (augmentations ++ [MyPreProcessing; ToTensorV2])%list
  /\ forall (E : env) (img : image) (w : world),
      compose_call E (augmentations ++ [MyPreProcessing; ToTensorV2])%list img w
      = (augmented <- compose_call E augmentations img ;;
         step E ToTensorV2
           (mkTensor (shape augmented)
              (map (fun v => astype_float32 E (v / 255)%Q) (data augmented)))) w.
Proof.
  apply (transform_of_split 8 224 true 0 "val2017").
  - right. left. reflexivity.
  - lia.
Defined.

(** A split the table does not list has no transform. *)
Lemma transform_of_unknown_split
    (batch_size_ size : Z) (shuffle_ : bool) (subset : Z) (image_split : string) :
  ~ In image_split splits ->
  Dataloader._transform
    (Dataloader.__init__ batch_size_ size shuffle_ subset) image_split
  = Raise KeyError.
Proof.
  intros Hnot. unfold Dataloader._transform. cbn [Dataloader._prob_aug Dataloader.__init__ Dataloader.dict_getitem].
  destruct (String.eqb_spec "train2017" image_split) as [<- | _];
    [exfalso; apply Hnot; now left |].
  destruct (String.eqb_spec "val2017" image_split) as [<- | _];
    [exfalso; apply Hnot; right; now left |].
  destruct (String.eqb_spec "test2017" image_split) as [<- | _];
    [exfalso; apply Hnot; right; right; now left |].
  reflexivity.
Qed.

(** ** Subsets *)




Lemma DataLoader_init_inv (ds : dataset) (batch_size_ : Z) (shuffle_ : bool)
    (collate_fn_ : bool) (loader : DataLoader) :
  DataLoader_init ds batch_size_ shuffle_ collate_fn_ = Ok loader ->
  loader = mkDataLoader ds batch_size_ shuffle_ collate_fn_
  /\ 1 <= batch_size_
  /\ (shuffle_ = true -> 0 < dataset_len ds).
Proof.
  unfold DataLoader_init.
  destruct (shuffle_ && (dataset_len ds <=? 0)) eqn:Hshuffle; [discriminate |].
  destruct (Z.ltb_spec batch_size_ 1) as [_ | Hbatch]; [discriminate |].
  intros [= <-]. split; [reflexivity |]. split; [assumption |].
  intros ->. simpl in Hshuffle. apply Z.leb_gt in Hshuffle. lia.
Qed.

(** The dataset a loader is built on: the provider, or the subset over
    it when the subset size is truthy. *)
Lemma get_dataloader_inv (E : env) (self : Dataloader.obj)
    (image_split : string) (caption_split : option string) (w w' : world)
    (loader : DataLoader) :
  Dataloader.get_dataloader E self image_split caption_split w
  = (Ok loader, w') ->
  exists (ts : Compose) (provider : dataset),
    Dataloader._transform self image_split = Ok ts
    /\ DataLoader_init
         (if truthy (Dataloader._subset self)
          then Subset provider (Dataloader._subset self) else provider)
         (Dataloader._batch_size self) (Dataloader._shuffle self)
         (negb (String.eqb image_split "test2017"))
       = Ok loader
    /\ ((image_split = "test2017" /\ w' = w
         /\ provider
            = OfData_test
                (Data_test.mk (Dataloader._dir self)
                   (glob (fs E) (Dataloader._dir self ++ "/" ++ image_split
                                   ++ "/*.jpg"))
                   (Some ts)))
        \/ (image_split <> "test2017"
            /\ exists d : Data.obj,
                Data.__init__ E (Dataloader._dir self) image_split
                  caption_split (Some ts) w = (Ok d, w')
                /\ provider = OfData d)).
Proof.
  unfold Dataloader.get_dataloader, bind, lift_res, ret.
  destruct (String.eqb_spec image_split "test2017") as [Htest | Htest].
  - destruct (Dataloader._transform self image_split) as [ts | e];
      [| discriminate].
    unfold Data_test.__init__, ret.
    destruct (DataLoader_init _ _ _ false) as [l |] eqn:Hinit; [| discriminate].
    intros [= <- <-]. eexists ts, _. split; [reflexivity |].
    split; [exact Hinit |]. left. repeat split; assumption.
  - destruct (Dataloader._transform self image_split) as [ts | e];
      [| discriminate].
    destruct (Data.__init__ E _ image_split caption_split (Some ts) w)
      as [[d | e] w1] eqn:Hd; [| discriminate].
    destruct (DataLoader_init _ _ _ true) as [l |] eqn:Hinit; [| discriminate].
    intros [= <- <-]. eexists ts, _. split; [reflexivity |].
    split; [exact Hinit |]. right. split; [assumption |].
    exists d. split; [exact Hd | reflexivity].
Qed.






(** ** The default: no subset *)

(** A provider is built whenever its caption file is absent or parses. *)
Lemma Data_init_returns (E : env) (image_dir image_split : string)
    (caption_split : option string) (tr : option Compose) (w : world) :
  json_load (fs E)
    (if String.eqb image_split "train2017"
     then image_dir ++ "/" ++ fmt caption_split ++ "/train_captions.json"
     else image_dir ++ "/" ++ fmt caption_split ++ "/val_captions.json")
  <> Malformed ->
  exists (d : Data.obj) (w' : world),
    Data.__init__ E image_dir image_split caption_split tr w = (Ok d, w')
    /\ Data._image_paths d
       = glob (fs E) (image_dir ++ "/" ++ image_split ++ "/*.jpg").
Proof.
  intros Hjson. unfold Data.__init__, bind.
  destruct (json_load (fs E) _); [| congruence |];
    eexists _, _; split; reflexivity.
Qed.

Lemma Data_init_paths (E : env) (image_dir image_split : string)
    (caption_split : option string) (tr : option Compose) (w w' : world)
    (d : Data.obj) :
  Data.__init__ E image_dir image_split caption_split tr w = (Ok d, w') ->
  Data._image_paths d
  = glob (fs E) (image_dir ++ "/" ++ image_split ++ "/*.jpg").
Proof.
  unfold Data.__init__, bind.
  destruct (json_load (fs E) _); simpl; intros [= <- _]; reflexivity.
Qed.

(** C10: whenever a loader is built with the default subset size 0, no
    [Subset] is built: the loader wraps the provider itself, [Data_test]
    for [test2017] and [Data] otherwise, over every image the glob of the
    split discovered. *)
Theorem default_subset_wraps_full_provider
    (E : env) (batch_size_ size : Z) (shuffle_ : bool)
    (image_split : string) (caption_split : option string) (w w' : world)
    (loader : DataLoader) :
  let self :=
    Dataloader.__init__ batch_size_ size shuffle_ Dataloader.default_subset in
  let discovered :=
    glob (fs E) (Dataloader._dir self ++ "/" ++ image_split ++ "/*.jpg") in
  Dataloader.get_dataloader E self image_split caption_split w
  = (Ok loader, w') ->
  dataset_len (loader_dataset loader) = Z.of_nat (List.length discovered)
  /\ match loader_dataset loader with
     | OfData d =>
         image_split <> "test2017" /\ Data._image_paths d = discovered
     | OfData_test d =>
         image_split = "test2017" /\ Data_test._image_paths d = discovered
     | Subset _ _ => False
     end.
Proof.
  intros self discovered Hbuilt.
  apply get_dataloader_inv in Hbuilt
    as (ts & provider & _ & Hinit & Hbranch).
  change (truthy (Dataloader._subset self)) with false in Hinit.
  cbv iota in Hinit.
  apply DataLoader_init_inv in Hinit as (-> & _ & _).
  cbn [loader_dataset].
  destruct Hbranch as [(Htest & _ & ->) | (Htest & d & Hd & ->)].
  - split; [reflexivity |]. split; [assumption | reflexivity].
  - pose proof (Data_init_paths E _ _ _ _ _ _ _ Hd) as Hpaths.
    cbn [dataset_len]. unfold Data.__len__. rewrite Hpaths.
    split; [reflexivity |]. split; [assumption | reflexivity].
Qed.

Lemma default_subset_wraps_full_provider_witness :
  let self := Dataloader.__init__ 4 2 false Dataloader.default_subset in
  let discovered :=
    glob (fs (Example.env_of Example.fs_coco))
         (Dataloader._dir self ++ "/" ++ "train2017" ++ "/*.jpg") in
  dataset_len (loader_dataset (Example.coco_loader 0))
  = Z.of_nat (List.length discovered)
  /\ match loader_dataset (Example.coco_loader 0) with
     | OfData d =>
         "train2017" <> "test2017" /\ Data._image_paths d = discovered
     | OfData_test d =>
         "train2017" = "test2017" /\ Data_test._image_paths d = discovered
     | Subset _ _ => False
     end.
Proof.
  apply (default_subset_wraps_full_provider (Example.env_of Example.fs_coco)
           4 2 false "train2017" (Some "captions") Example.w0 Example.w0
           (Example.coco_loader 0)).
  reflexivity.
Defined.

(** * Further properties of the code *)

(** ** Accesses that stop before the lookup *)

Lemma getitem_outside {A : Type} (l : list A) (i : Z) :
  i < - Z.of_nat (List.length l) \/ Z.of_nat (List.length l) <= i ->
  getitem l i = Raise IndexError.
Proof.
  intros Hi. unfold getitem.
  destruct (Z.ltb_spec i 0) as [Hneg | Hpos].
  - replace (0 <=? Z.of_nat (List.length l) + i) with false
      by (symmetry; apply Z.leb_gt; lia).
    reflexivity.
  - replace (i <? Z.of_nat (List.length l)) with false
      by (symmetry; apply Z.ltb_ge; lia).
    now rewrite andb_false_r.
Qed.

Lemma getitem_negative {A : Type} (l : list A) (i : Z) :
  - Z.of_nat (List.length l) <= i < 0 ->
  getitem l i = getitem l (Z.of_nat (List.length l) + i).
Proof.
  intros Hi. unfold getitem.
  replace (i <? 0) with true by (symmetry; apply Z.ltb_lt; lia).
  replace (Z.of_nat (List.length l) + i <? 0) with false
    by (symmetry; apply Z.ltb_ge; lia).
  reflexivity.
Qed.

Lemma int_raises_ValueError (s : string) (e : exn) :
  int s = Raise e -> e = ValueError.
Proof.
  unfold int. destruct (rstrip_c (lstrip_c s)) as [| c t];
    [now intros [= <-] |].
  destruct (Ascii.eqb c "-"); [| destruct (Ascii.eqb c "+")];
    match goal with
    | |- context [digits ?t 0 false] => destruct (digits t 0 false)
    end; (discriminate || now intros [= <-]).
Qed.

(** X1: an index outside [-len, len) raises [IndexError] at once: nothing
    is read, printed or drawn, and the provider is as it was. *)
Theorem getitem_index_out_of_range
    (E : env) (self : Data.obj) (idx : Z) (w : world) :
  idx < - Data.__len__ self \/ Data.__len__ self <= idx ->
  Data.__getitem__ E idx (self, w) = (Raise IndexError, (self, w)).
Proof.
  intros Hidx. unfold Data.__len__ in Hidx.
  unfold Data.__getitem__, bind, get_self, lift_res. simpl.
  now rewrite (getitem_outside _ idx Hidx).
Qed.

Lemma getitem_index_out_of_range_witness :
  Data.__getitem__ (Example.env_of Example.fs_dog) 1
    (Example.data_of Example.fs_dog, Example.w0)
  = (Raise IndexError, (Example.data_of Example.fs_dog, Example.w0)).
Proof.
  apply (getitem_index_out_of_range (Example.env_of Example.fs_dog)
           (Example.data_of Example.fs_dog) 1 Example.w0).
  right. vm_compute. discriminate.
Defined.

(** X2: when the image at the index does not decode, the access raises
    [FileNotFoundError] before the caption lookup: no warning, no
    tokenizer call, no transform, no draw. *)
Theorem getitem_undecodable_image
    (E : env) (self : Data.obj) (idx : Z) (w : world) (path : string) :
  getitem (Data._image_paths self) idx = Ok path ->
  imread (fs E) path = None ->
  Data.__getitem__ E idx (self, w) = (Raise FileNotFoundError, (self, w)).
Proof.
  intros Hpath Himg.
  unfold Data.__getitem__, bind, get_self, lift_res, raise. simpl.
  now rewrite Hpath, Himg.
Qed.

Lemma getitem_undecodable_image_witness :
  Data.__getitem__ (Example.env_of Example.fs_corrupt) 0
    (Example.data_of Example.fs_corrupt, Example.w0)
  = (Raise FileNotFoundError,
     (Example.data_of Example.fs_corrupt, Example.w0)).
Proof.
  apply (getitem_undecodable_image (Example.env_of Example.fs_corrupt)
           (Example.data_of Example.fs_corrupt) 0 Example.w0
           Example.dog_path).
  - reflexivity.
  - reflexivity.
Defined.

(** X3: when the file name up to its first dot is ASCII text that is not
    an integer literal, the access raises [ValueError] from [int] after
    decoding the image and before the lookup; unlike the failure of an
    uncaptioned image, nothing is printed. *)
Theorem getitem_non_integer_stem
    (E : env) (self : Data.obj) (idx : Z) (w : world)
    (path : string) (img : image) (e : exn) :
  getitem (Data._image_paths self) idx = Ok path ->
  imread (fs E) path = Some img ->
  isascii (split_dot_0 (basename path)) = true ->
  int (split_dot_0 (basename path)) = Raise e ->
  Data.__getitem__ E idx (self, w) = (Raise ValueError, (self, w)).
Proof.
  intros Hpath Himg _ Hid.
  pose proof (int_raises_ValueError _ _ Hid) as ->.
  unfold Data.__getitem__, bind, get_self, lift_res, raise, ret. simpl.
  now rewrite Hpath, Himg, Hid.
Qed.

Lemma getitem_non_integer_stem_witness :
  Data.__getitem__ (Example.env_of Example.fs_named) 0
    (Example.data_of Example.fs_named, Example.w0)
  = (Raise ValueError, (Example.data_of Example.fs_named, Example.w0)).
Proof.
  apply (getitem_non_integer_stem (Example.env_of Example.fs_named)
           (Example.data_of Example.fs_named) 0 Example.w0
           Example.named_path Example.dog_image ValueError).
  - reflexivity.
  - reflexivity.
  - reflexivity.
  - reflexivity.
Defined.

(** X4: when the last record carrying the id of the image lists no
    caption, the access raises [ValueError] from [random.randint(0, -1)]
    without printing the warning, even if an earlier record for the same
    image has captions. *)
Theorem getitem_record_without_captions
    (E : env) (self : Data.obj) (idx : Z) (w : world)
    (path : string) (img : image) (n : Z)
    (pre post : list anno) (r : anno) :
  Data._captions self = Records (pre ++ r :: post)%list ->
  image_id r = n ->
  captions r = [] ->
  (forall a, In a post -> image_id a <> n) ->
  getitem (Data._image_paths self) idx = Ok path ->
  imread (fs E) path = Some img ->
  int (split_dot_0 (basename path)) = Ok n ->
  Data.__getitem__ E idx (self, w) = (Raise ValueError, (self, w)).
Proof.
  intros Hstore Hr Hnone Hpost Hpath Himg Hid.
  assert (Hics : Data.image_captions (Data._captions self) (str n)
                 = (map captions (matching n pre) ++ [captions r])%list).
  { rewrite Hstore, image_captions_matching.
    rewrite (matching_last n pre post r Hr Hpost). now rewrite map_app. }
  unfold Data.__getitem__, bind, get_self, lift_res, io, raise, ret. simpl.
  rewrite Hpath, Himg, Hid.
  rewrite last_assigned_last, Hics, last_last, Hnone.
  destruct (map captions (matching n pre) ++ [[]])%list eqn:Hl.
  - now destruct (map captions (matching n pre)).
  - reflexivity.
Qed.

Lemma getitem_record_without_captions_witness :
  Data.__getitem__ (Example.env_of Example.fs_silent) 0
    (Example.data_of Example.fs_silent, Example.w0)
  = (Raise ValueError, (Example.data_of Example.fs_silent, Example.w0)).
Proof.
  apply (getitem_record_without_captions (Example.env_of Example.fs_silent)
           (Example.data_of Example.fs_silent) 0 Example.w0
           Example.dog_path Example.dog_image 123
           [mkAnno 123 ["a dog"]] [] (mkAnno 123 [])).
  - reflexivity.
  - reflexivity.
  - reflexivity.
  - intros a [].
  - reflexivity.
  - reflexivity.
  - reflexivity.
Defined.

(** ** Accesses that reach the tokenizer *)

Lemma getitem_Ok_In {A : Type} (l : list A) (i : Z) (a : A) :
  getitem l i = Ok a -> In a l.
Proof.
  unfold getitem.
  destruct ((0 <=? _) && (_ <? _)); [| discriminate].
  destruct (nth_error l _) eqn:Hnth; [| discriminate].
  intros [= ->]. eapply nth_error_In, Hnth.
Qed.

Lemma last_assigned_nonempty (l : list (list string)) :
  Data.last_assigned l <> [] -> l <> [].
Proof. intros Hlast ->. now apply Hlast. Qed.

(** X5: a provider built without transform, on an image whose resolved
    caption list is not empty, returns the decoded image itself together
    with the tokens of the stripped text of one caption of that list; the
    only event of the access is that one tokenizer call. *)
Theorem getitem_without_transform
    (E : env) (self : Data.obj) (idx : Z) (w : world)
    (path : string) (img : image) (n : Z) (caps : list string) :
  Data._transform self = None ->
  getitem (Data._image_paths self) idx = Ok path ->
  imread (fs E) path = Some img ->
  int (split_dot_0 (basename path)) = Ok n ->
  Data.last_assigned (Data.image_captions (Data._captions self) (str n))
  = caps ->
  caps <> [] ->
  exists (c : string) (w' : world),
    In c caps
    /\ appended w w' [EvTokenize (strip c)]
    /\ Data.__getitem__ E idx (self, w)
       = (Ok (img, tokenizer E (strip c)), (self, w')).
Proof.
  intros Htr Hpath Himg Hid Hlast Hcaps.
  assert (Hsome : Data.image_captions (Data._captions self) (str n) <> []).
  { apply last_assigned_nonempty. congruence. }
  destruct (getitem_captioned E self idx w path img n caps
              Hpath Himg Hid Hsome Hlast Hcaps)
    as (k & w1 & c & Hrand & Hc & Hget).
  destruct (randint_range 0 (Z.of_nat (List.length caps) - 1) w)
    as (k' & w1' & Hrand' & _ & Hevents).
  { destruct caps; [congruence | simpl List.length; lia]. }
  rewrite Hrand in Hrand'. injection Hrand' as <- <-.
  exists c, (tokenized w1 (strip c)). split; [| split].
  - eapply getitem_Ok_In, Hc.
  - unfold appended, tokenized. simpl. now rewrite Hevents.
  - rewrite Hget, Htr. reflexivity.
Qed.

Lemma getitem_without_transform_witness :
  exists (c : string) (w' : world),
    In c [" a dog "; "a puppy"]
    /\ appended Example.w0 w' [EvTokenize (strip c)]
    /\ Data.__getitem__ (Example.env_of Example.fs_pair) 0
         (Example.data_of Example.fs_pair, Example.w0)
       = (Ok (Example.dog_image,
              tokenizer (Example.env_of Example.fs_pair) (strip c)),
          (Example.data_of Example.fs_pair, w')).
Proof.
  apply (getitem_without_transform (Example.env_of Example.fs_pair)
           (Example.data_of Example.fs_pair) 0 Example.w0
           "/data/coco/train2017/000123.jpg" Example.dog_image 123
           [" a dog "; "a puppy"]).
  - reflexivity.
  - reflexivity.
  - reflexivity.
  - reflexivity.
  - reflexivity.
  - discriminate.
Defined.

(** X6: a negative index counts from the end of the discovered images:
    for [-len <= idx < 0] the access at [idx] is the access at
    [len + idx], result and effects alike. *)
Theorem getitem_negative_index
    (E : env) (self : Data.obj) (idx : Z) (w : world) :
  - Data.__len__ self <= idx < 0 ->
  Data.__getitem__ E idx (self, w)
  = Data.__getitem__ E (Data.__len__ self + idx) (self, w).
Proof.
  intros Hidx. unfold Data.__len__ in *.
  unfold Data.__getitem__, bind, get_self, lift_res. simpl.
  now rewrite (getitem_negative _ idx Hidx).
Qed.

Lemma getitem_negative_index_witness :
  Data.__getitem__ (Example.env_of Example.fs_pair) (-1)
    (Example.data_of Example.fs_pair, Example.w0)
  = Data.__getitem__ (Example.env_of Example.fs_pair)
      (Data.__len__ (Example.data_of Example.fs_pair) + -1)
      (Example.data_of Example.fs_pair, Example.w0).
Proof.
  apply (getitem_negative_index (Example.env_of Example.fs_pair)
           (Example.data_of Example.fs_pair) (-1) Example.w0).
  change (Data.__len__ (Example.data_of Example.fs_pair)) with 2. lia.
Defined.

(** ** What an access leaves in the world *)

Lemma step_events (E : env) (t : aug) (img : image) (w : world) :
  events (snd (step E t img w)) = events w.
Proof.
  destruct t; simpl; try reflexivity;
    now destruct (albumentations E _ img (entropy w)).
Qed.

Lemma compose_call_events (E : env) (ts : Compose) (img : image) (w : world) :
  events (snd (compose_call E ts img w)) = events w.
Proof.
  revert img w. induction ts as [| t ts IH]; intros img w.
  - reflexivity.
  - cbn [compose_call]. unfold bind.
    pose proof (step_events E t img w) as Hstep.
    destruct (step E t img w) as [[img' | e] w1]; simpl in Hstep.
    + now rewrite IH.
    + assumption.
Qed.

Lemma apply_transform_events (E : env) (tr : option Compose) (img : image)
    (w : world) :
  events (snd (apply_transform E tr img w))
  = (events w ++ if calls_transform tr then [EvTransform img] else [])%list.
Proof.
  destruct tr as [[| t ts] |]; simpl.
  - symmetry. apply List.app_nil_r.
  - unfold transform, bind, emit.
    change (events (snd (compose_call E (t :: ts) img
                           (mkWorld (events w ++ [EvTransform img])%list
                                    (entropy w))))
            = (events w ++ [EvTransform img])%list).
    now rewrite compose_call_events.
  - symmetry. apply List.app_nil_r.
Qed.

Lemma apply_transform_skipped (E : env) (tr : option Compose) (img : image)
    (w : world) :
  calls_transform tr = false -> apply_transform E tr img w = (Ok img, w).
Proof. destruct tr as [[| t ts] |]; [reflexivity | discriminate | reflexivity]. Qed.

(** An access whose lookup finds records, the last of them without
    captions. *)
Lemma getitem_silent (E : env) (self : Data.obj) (idx : Z) (w : world)
    (path : string) (img : image) (n : Z) :
  getitem (Data._image_paths self) idx = Ok path ->
  imread (fs E) path = Some img ->
  int (split_dot_0 (basename path)) = Ok n ->
  Data.image_captions (Data._captions self) (str n) <> [] ->
  Data.last_assigned (Data.image_captions (Data._captions self) (str n)) = [] ->
  Data.__getitem__ E idx (self, w) = (Raise ValueError, (self, w)).
Proof.
  intros Hpath Himg Hid Hsome Hlast.
  unfold Data.__getitem__, bind, get_self, lift_res, io, raise, ret. simpl.
  rewrite Hpath, Himg, Hid, Hlast.
  destruct (Data.image_captions (Data._captions self) (str n));
    [congruence | reflexivity].
Qed.

(** X7: whatever the index and the files, one access appends to the events
    of the world nothing, or the one warning (and then it raises
    [ValueError]), or one tokenizer call, followed by one transform call
    on the decoded image exactly when [if self._transform:] holds, that
    is when the provider has a pipeline with at least one step.  It
    returns a sample only in the last two cases, with the tokens of the
    tokenized text, and a warning is never followed by a sample. *)
Theorem getitem_trace (E : env) (idx : Z) (self : Data.obj) (w : world) :
  let '(r, (_, w')) := Data.__getitem__ E idx (self, w) in
  match r with
  | Ok (_, caption_tensor) =>
      exists (text : string) (img : image),
        caption_tensor = tokenizer E text
        /\ appended w w'
             (EvTokenize text
                :: if calls_transform (Data._transform self)
                   then [EvTransform img] else [])
  | Raise e =>
      appended w w' []
      \/ (e = ValueError
          /\ exists line : string, appended w w' [EvPrint line])
      \/ (exists (text : string) (img : image),
             calls_transform (Data._transform self) = true
             /\ appended w w' [EvTokenize text; EvTransform img])
  end.
Proof.
  assert (Hnil : forall w0 : world, appended w0 w0 []).
  { intros w0. unfold appended. symmetry. apply List.app_nil_r. }
  destruct (getitem (Data._image_paths self) idx) as [path | e] eqn:Hpath.
  2: { unfold Data.__getitem__, bind, get_self, lift_res. simpl.
       rewrite Hpath. left. apply Hnil. }
  destruct (imread (fs E) path) as [img |] eqn:Himg.
  2: { unfold Data.__getitem__, bind, get_self, lift_res, raise. simpl.
       rewrite Hpath, Himg. left. apply Hnil. }
  destruct (int (split_dot_0 (basename path))) as [n | e] eqn:Hid.
  2: { unfold Data.__getitem__, bind, get_self, lift_res, ret. simpl.
       rewrite Hpath, Himg, Hid. left. apply Hnil. }
  destruct (Data.image_captions (Data._captions self) (str n)) as [| c0 cs]
    eqn:Hics.
  { rewrite (getitem_uncaptioned E self idx w path img n Hpath Himg Hid Hics).
    right. left. split; [reflexivity |].
    eexists. unfold appended, printed. reflexivity. }
  assert (Hsome : Data.image_captions (Data._captions self) (str n) <> [])
    by (rewrite Hics; discriminate).
  destruct (Data.last_assigned
              (Data.image_captions (Data._captions self) (str n)))
    as [| c1 caps] eqn:Hlast.
  { rewrite (getitem_silent E self idx w path img n Hpath Himg Hid Hsome Hlast).
    left. apply Hnil. }
  destruct (getitem_captioned E self idx w path img n (c1 :: caps)
              Hpath Himg Hid Hsome Hlast)
    as (k & w1 & c & Hrand & Hc & Hget); [discriminate |].
  destruct (randint_range 0 (Z.of_nat (List.length (c1 :: caps)) - 1) w)
    as (k' & w1' & Hrand' & _ & Hevents); [simpl List.length; lia |].
  rewrite Hrand in Hrand'. injection Hrand' as <- <-.
  rewrite Hget.
  pose proof (apply_transform_events E (Data._transform self) img
                (tokenized w1 (strip c))) as Hev.
  destruct (apply_transform E (Data._transform self) img
              (tokenized w1 (strip c))) as [[img' | e] w2] eqn:Happly;
    simpl in Hev; unfold tokenized in Hev; simpl in Hev;
    rewrite Hevents, <- List.app_assoc in Hev.
  - exists (strip c), img. split; [reflexivity | exact Hev].
  - right. right. exists (strip c), img.
    destruct (calls_transform (Data._transform self)) eqn:Hcalls.
    + split; [reflexivity | exact Hev].
    + rewrite (apply_transform_skipped E _ img _ Hcalls) in Happly.
      discriminate.
Qed.

(** ** The test provider and the wrapped datasets *)

Lemma Data_getitem_preserves (E : env) (idx : Z) :
  preserves_self (Data.__getitem__ E idx).
Proof. unfold Data.__getitem__. repeat frame_step. Qed.

(** X8: an access to a test provider never prints and never calls the
    tokenizer or the random source of the caption choice: it leaves the
    provider as it was and appends to the events nothing (when it raises
    before the transform, or when there is no transform) or the one
    transform call on the image it decoded at that index. *)
Theorem Data_test_getitem_trace
    (E : env) (idx : Z) (self : Data_test.obj) (w : world) :
  let '(r, (self', w')) := Data_test.__getitem__ E idx (self, w) in
  self' = self
  /\ (appended w w' []
      \/ exists (path : string) (img : image),
          getitem (Data_test._image_paths self) idx = Ok path
          /\ imread (fs E) path = Some img
          /\ Data_test._transform self <> None
          /\ appended w w' [EvTransform img])
  /\ (Data_test._transform self = None ->
      w' = w
      /\ forall img, r = Ok img ->
                     exists path,
                       getitem (Data_test._image_paths self) idx = Ok path
                       /\ imread (fs E) path = Some img).
Proof.
  assert (Hnil : forall w0 : world, appended w0 w0 []).
  { intros w0. unfold appended. symmetry. apply List.app_nil_r. }
  unfold Data_test.__getitem__, bind, get_self, lift_res, io, raise, ret.
  cbn [fst snd].
  destruct (getitem (Data_test._image_paths self) idx) as [path | e] eqn:Hpath.
  2: { split; [reflexivity |]. split; [left; apply Hnil |].
       intros _. split; [reflexivity | discriminate]. }
  destruct (imread (fs E) path) as [img |] eqn:Himg.
  2: { split; [reflexivity |]. split; [left; apply Hnil |].
       intros _. split; [reflexivity | discriminate]. }
  pose proof (apply_transform_events E (Data_test._transform self) img w)
    as Hev.
  destruct (Data_test._transform self) as [[| t ts] |] eqn:Htr.
  - cbn [fst snd]. rewrite apply_transform_skipped by reflexivity.
    cbv beta iota.
    split; [reflexivity |]. split; [left; apply Hnil |]. discriminate.
  - cbn [fst snd].
    destruct (apply_transform E _ img w) as [r w'] eqn:Happly.
    simpl in Hev. cbv beta iota. split; [reflexivity |]. split.
    + right. exists path, img.
      split; [reflexivity |]. split; [exact Himg |].
      split; [discriminate | exact Hev].
    + discriminate.
  - cbn [fst snd]. rewrite apply_transform_skipped by reflexivity.
    cbv beta iota.
    split; [reflexivity |]. split; [left; apply Hnil |].
    intros _. split; [reflexivity |].
    intros img' [= <-]. now exists path.
Qed.

(** X9: an access to a dataset, be it a provider of either class or a
    subset of any depth, hands the dataset back unchanged, whether it
    returns a sample or raises. *)
Theorem dataset_getitem_leaves_dataset_unchanged
    (E : env) (ds : dataset) (idx : Z) (w : world) :
  fst (snd (dataset_getitem E ds idx w)) = ds.
Proof.
  revert idx w. induction ds as [d | d | base IH stop]; intros idx w.
  - cbn [dataset_getitem].
    pose proof (Data_getitem_preserves E idx (d, w)) as Hd.
    destruct (Data.__getitem__ E idx (d, w)) as [r [d' w']].
    simpl in *. now subst d'.
  - cbn [dataset_getitem].
    pose proof (Data_test_getitem_preserves E idx (d, w)) as Hd.
    destruct (Data_test.__getitem__ E idx (d, w)) as [r [d' w']].
    simpl in *. now subst d'.
  - cbn [dataset_getitem].
    destruct (range_getitem stop idx) as [j | e]; [| reflexivity].
    specialize (IH j w).
    destruct (dataset_getitem E base j w) as [r [base' w']].
    simpl in *. now subst base'.
Qed.

(** ** Construction *)

(** X10: a provider that has been constructed has as its length the
    number of images the glob of its split found, whatever the caption
    file holds or lacks, and keeps the transform it was given. *)
Theorem Data_init_length
    (E : env) (image_dir image_split : string)
    (caption_split : option string) (tr : option Compose) (w w' : world)
    (d : Data.obj) :
  Data.__init__ E image_dir image_split caption_split tr w = (Ok d, w') ->
  Data.__len__ d
  = Z.of_nat (List.length
                (glob (fs E) (image_dir ++ "/" ++ image_split ++ "/*.jpg")))
  /\ Data._transform d = tr.
Proof.
  unfold Data.__init__, bind.
  match goal with
  | |- context [json_load (fs E) ?p] => destruct (json_load (fs E) p)
  end; simpl; intros [= <- _]; split; reflexivity.
Qed.

Lemma Data_init_length_witness :
  Data.__len__ (Example.data_of Example.fs_bare)
  = Z.of_nat (List.length
                (glob (fs (Example.env_of Example.fs_bare))
                      (Example.root ++ "/" ++ "train2017" ++ "/*.jpg")))
  /\ Data._transform (Example.data_of Example.fs_bare) = None.
Proof.
  apply (Data_init_length (Example.env_of Example.fs_bare) Example.root
           "train2017" (Some "captions") None Example.w0
           (printed Example.w0 "Caption file for train2017 not found.")
           (Example.data_of Example.fs_bare)).
  reflexivity.
Defined.

(** X11: for every split other than [train2017] the constructor reads
    [val_captions.json]: when that file parses, its records are the
    caption store and nothing is printed, whatever [train_captions.json]
    is. *)
Theorem Data_init_reads_val_captions
    (E : env) (image_dir image_split : string)
    (caption_split : option string) (tr : option Compose) (w : world)
    (l : list anno) :
  image_split <> "train2017" ->
  json_load (fs E)
    (image_dir ++ "/" ++ fmt caption_split ++ "/val_captions.json")
  = Loaded l ->
  exists d : Data.obj,
    Data.__init__ E image_dir image_split caption_split tr w = (Ok d, w)
    /\ Data._captions d = Records l.
Proof.
  intros Hsplit Hval. unfold Data.__init__, bind.
  replace (String.eqb image_split "train2017") with false
    by (symmetry; now apply String.eqb_neq).
  rewrite Hval. eexists. split; reflexivity.
Qed.

Lemma Data_init_reads_val_captions_witness :
  exists d : Data.obj,
    Data.__init__ (Example.env_of Example.fs_val) Example.root "val2017"
      (Some "captions") None Example.w0 = (Ok d, Example.w0)
    /\ Data._captions d = Records [mkAnno 42 ["a bench"]].
Proof.
  apply (Data_init_reads_val_captions (Example.env_of Example.fs_val)
           Example.root "val2017" (Some "captions") None Example.w0
           [mkAnno 42 ["a bench"]]).
  - discriminate.
  - reflexivity.
Defined.

(** ** More on collation *)

Lemma stack_outcome (i0 : image) (rest : list image) :
  match Dataloader.stack (i0 :: rest) with
  | Ok t =>
      (forall i, In i (i0 :: rest) -> shape i = shape i0)
      /\ t = mkTensor (List.length (i0 :: rest) :: shape i0)
                      (List.concat (map data (i0 :: rest)))
  | Raise e =>
      e = RuntimeError /\ exists i, In i rest /\ shape i <> shape i0
  end.
Proof.
  unfold Dataloader.stack.
  destruct (forallb (fun i => if list_eq_dec Nat.eq_dec (shape i) (shape i0)
                              then true else false) (i0 :: rest)) eqn:Hall.
  - split; [| reflexivity].
    intros i Hi. rewrite forallb_forall in Hall. specialize (Hall i Hi).
    now destruct (list_eq_dec Nat.eq_dec (shape i) (shape i0)).
  - split; [reflexivity |].
    assert (Hrest : forallb (fun i => if list_eq_dec Nat.eq_dec (shape i) (shape i0)
                                      then true else false) rest = false).
    { simpl in Hall.
      destruct (list_eq_dec Nat.eq_dec (shape i0) (shape i0)); [| congruence].
      exact Hall. }
    clear Hall. induction rest as [| i rest IH]; [discriminate |].
    simpl in Hrest.
    destruct (list_eq_dec Nat.eq_dec (shape i) (shape i0)) as [Heq | Hne].
    + destruct (IH Hrest) as (j & Hj & Hshape).
      exists j. split; [now right | assumption].
    + exists i. split; [now left | assumption].
Qed.

(** X12: the collation returns exactly for the non-empty batches whose
    images agree on their shape; the empty batch raises [ValueError] (the
    unpacking of the zipped batch into two names), a batch with two images of different
    shapes raises [RuntimeError] (the stacking). *)
Theorem collate_fn_outcome (batch : list (image * list Z)) :
  match Dataloader._collate_fn batch with
  | Ok _ => batch <> [] /\ uniform_shapes batch
  | Raise e =>
      (batch = [] /\ e = ValueError)
      \/ (batch <> [] /\ ~ uniform_shapes batch /\ e = RuntimeError)
  end.
Proof.
  destruct batch as [| p batch]; [left; split; reflexivity |].
  rewrite collate_fn_nonempty by discriminate.
  rewrite (pad_sequence_Ok (map snd (p :: batch)) 0) by discriminate.
  pose proof (stack_outcome (fst p) (map fst batch)) as Hstack.
  change (map fst (p :: batch)) with (fst p :: map fst batch).
  destruct (Dataloader.stack (fst p :: map fst batch)) as [t | e].
  - destruct Hstack as [Hshape _]. split; [discriminate |].
    intros a b Ha Hb.
    rewrite (Hshape (fst a)), (Hshape (fst b)); [reflexivity | |];
      change (fst p :: map fst batch) with (map fst (p :: batch));
      now apply in_map.
  - destruct Hstack as (-> & i & Hi & Hne). right.
    split; [discriminate |]. split; [| reflexivity].
    intros Huniform. apply in_map_iff in Hi as (q & <- & Hq).
    apply Hne, Huniform; [now right | now left].
Qed.

(** X13: a collated image batch holds the entries of the images in batch
    order, under the batch length followed by the shape the images
    share. *)
Theorem collate_fn_images_in_order
    (batch : list (image * list Z)) (images : image) (caps : tensor Z) :
  Dataloader._collate_fn batch = Ok (images, caps) ->
  data images = List.concat (map (fun p => data (fst p)) batch)
  /\ exists s : list nat,
      shape images = List.length batch :: s
      /\ forall p, In p batch -> shape (fst p) = s.
Proof.
  intros Hcollate. apply collate_fn_Ok in Hcollate as [Hstack _].
  destruct batch as [| p batch]; [discriminate |].
  pose proof (stack_outcome (fst p) (map fst batch)) as Hout.
  change (map fst (p :: batch)) with (fst p :: map fst batch) in Hstack.
  rewrite Hstack in Hout. destruct Hout as [Hshape ->].
  cbn [data shape]. split.
  - change (fst p :: map fst batch) with (map fst (p :: batch)).
    now rewrite map_map.
  - exists (shape (fst p)). split.
    + cbn [List.length]. now rewrite length_map.
    + intros q Hq. apply Hshape.
      change (fst p :: map fst batch) with (map fst (p :: batch)).
      now apply in_map.
Qed.

Lemma collate_fn_images_in_order_witness :
  data (mkTensor [2; 3; 1; 1]%nat
          [1 # 1; 2 # 1; 3 # 1; 4 # 1; 5 # 1; 6 # 1]%Q)
  = List.concat (map (fun p => data (fst p)) Example.batch2)
  /\ exists s : list nat,
      shape (mkTensor [2; 3; 1; 1]%nat
               [1 # 1; 2 # 1; 3 # 1; 4 # 1; 5 # 1; 6 # 1]%Q)
      = List.length Example.batch2 :: s
      /\ forall p, In p Example.batch2 -> shape (fst p) = s.
Proof.
  apply (collate_fn_images_in_order Example.batch2
           (mkTensor [2; 3; 1; 1]%nat
              [1 # 1; 2 # 1; 3 # 1; 4 # 1; 5 # 1; 6 # 1]%Q)
           (mkTensor [2; 5]%nat [101; 7; 102; 0; 0; 101; 7; 8; 9; 102])).
  reflexivity.
Defined.

Lemma max_len_constant (seqs : list (list Z)) (len : nat) :
  seqs <> [] ->
  (forall c, In c seqs -> List.length c = len) ->
  Dataloader.max_len seqs = len.
Proof.
  intros Hne Hlen.
  destruct (max_len_attained seqs Hne) as (c & Hc & <-).
  now apply Hlen.
Qed.

(** X14: when the captions of a batch all have one length, the collation
    adds no padding: the caption batch is the captions themselves, one
    after the other, under the shape batch length by that length. *)
Theorem collate_fn_equal_lengths
    (batch : list (image * list Z)) (images : image) (caps : tensor Z)
    (len : nat) :
  Dataloader._collate_fn batch = Ok (images, caps) ->
  (forall p, In p batch -> List.length (snd p) = len) ->
  caps = mkTensor [List.length batch; len] (List.concat (map snd batch)).
Proof.
  intros Hcollate Hlen.
  assert (Hne : map snd batch <> []).
  { destruct batch; [discriminate Hcollate | discriminate]. }
  apply collate_fn_Ok in Hcollate as [_ ->].
  assert (Hmax : Dataloader.max_len (map snd batch) = len).
  { apply max_len_constant; [assumption |].
    intros c Hc. apply in_map_iff in Hc as (p & <- & Hp). now apply Hlen. }
  rewrite Hmax. f_equal. f_equal.
  rewrite <- (map_id (map snd batch)) at 2.
  apply map_ext_in. intros c Hc.
  apply in_map_iff in Hc as (p & <- & Hp).
  rewrite (Hlen p Hp), Nat.sub_diag. apply List.app_nil_r.
Qed.

Lemma collate_fn_equal_lengths_witness :
  mkTensor [2; 3]%nat [101; 7; 102; 101; 9; 102]
  = mkTensor [List.length Example.batch_even; 3%nat]
             (List.concat (map snd Example.batch_even)).
Proof.
  apply (collate_fn_equal_lengths Example.batch_even
           (mkTensor [2; 3; 1; 1]%nat
              [1 # 1; 2 # 1; 3 # 1; 4 # 1; 5 # 1; 6 # 1]%Q)
           (mkTensor [2; 3]%nat [101; 7; 102; 101; 9; 102]) 3%nat).
  - reflexivity.
  - intros p [<- | [<- | []]]; reflexivity.
Defined.

(** ** More on the loaders *)

Lemma range_getitem_outside (n i : Z) :
  i < - range_len n \/ range_len n <= i ->
  range_getitem n i = Raise IndexError.
Proof.
  intros Hi. unfold range_getitem.
  assert (Hlen : 0 <= range_len n) by (unfold range_len; lia).
  destruct (Z.ltb_spec i 0) as [Hneg | Hpos].
  - replace (0 <=? range_len n + i) with false
      by (symmetry; apply Z.leb_gt; lia).
    reflexivity.
  - replace (i <? range_len n) with false
      by (symmetry; apply Z.ltb_ge; lia).
    now rewrite andb_false_r.
Qed.

(** X15: a split name outside the probability table makes
    [get_dataloader] raise [KeyError] from the transform, before any
    directory is listed or any caption file opened: nothing is printed
    and no provider is built. *)
Theorem get_dataloader_unknown_split
    (E : env) (batch_size_ size : Z) (shuffle_ : bool) (subset : Z)
    (image_split : string) (caption_split : option string) (w : world) :
  ~ In image_split splits ->
  Dataloader.get_dataloader E
    (Dataloader.__init__ batch_size_ size shuffle_ subset)
    image_split caption_split w
  = (Raise KeyError, w).
Proof.
  intros Hsplit.
  unfold Dataloader.get_dataloader, bind, lift_res.
  rewrite (transform_of_unknown_split batch_size_ size shuffle_ subset
             image_split Hsplit).
  now destruct (String.eqb image_split "test2017").
Qed.

Lemma get_dataloader_unknown_split_witness :
  Dataloader.get_dataloader (Example.env_of Example.fs_coco)
    (Dataloader.__init__ 4 2 false 0) "train" (Some "captions") Example.w0
  = (Raise KeyError, Example.w0).
Proof.
  apply (get_dataloader_unknown_split (Example.env_of Example.fs_coco)
           4 2 false 0 "train" (Some "captions") Example.w0).
  intros [H | [H | [H | []]]]; discriminate.
Defined.

(** What a transform that was built tells about its arguments. *)
Lemma transform_inv (batch_size_ size : Z) (shuffle_ : bool) (subset : Z)
    (image_split : string) (ts : Compose) :
  Dataloader._transform
    (Dataloader.__init__ batch_size_ size shuffle_ subset) image_split = Ok ts ->
  In image_split splits
  /\ 1 <= size
  /\ ts = [Resize size size;
           RandomBrightnessContrast
             (if String.eqb image_split "train2017" then 1 # 2 else 0 # 1)%Q;
           HueSaturationValue
             (if String.eqb image_split "train2017" then 1 # 2 else 0 # 1)%Q;
           HorizontalFlip
             (if String.eqb image_split "train2017" then 1 # 2 else 0 # 1)%Q;
           VerticalFlip
             (if String.eqb image_split "train2017" then 1 # 2 else 0 # 1)%Q;
           MyPreProcessing; ToTensorV2].
Proof.
  intros Hts.
  destruct (in_dec string_dec image_split splits) as [Hin | Hout].
  2: { rewrite (transform_of_unknown_split _ _ _ _ _ Hout) in Hts.
       discriminate. }
  split; [assumption |].
  pose (self := Dataloader.__init__ batch_size_ size shuffle_ subset).
  destruct (Z.ltb_spec size 1) as [Hsmall | Hsize].
  - exfalso.
    destruct Hin as [<- | [<- | [<- | []]]].
    + pose proof (eq_trans (eq_sym (transform_bad_size self "train2017"
                    (1 # 2)%Q Hsmall eq_refl)) Hts) as X.
      discriminate X.
    + pose proof (eq_trans (eq_sym (transform_bad_size self "val2017"
                    (0 # 1)%Q Hsmall eq_refl)) Hts) as X.
      discriminate X.
    + pose proof (eq_trans (eq_sym (transform_bad_size self "test2017"
                    (0 # 1)%Q Hsmall eq_refl)) Hts) as X.
      discriminate X.
  - split; [assumption |].
    destruct Hin as [<- | [<- | [<- | []]]].
    + pose proof (eq_trans (eq_sym (transform_Ok self "train2017"
                    (1 # 2)%Q Hsize eq_refl)) Hts) as X.
      injection X as <-. reflexivity.
    + pose proof (eq_trans (eq_sym (transform_Ok self "val2017"
                    (0 # 1)%Q Hsize eq_refl)) Hts) as X.
      injection X as <-. reflexivity.
    + pose proof (eq_trans (eq_sym (transform_Ok self "test2017"
                    (0 # 1)%Q Hsize eq_refl)) Hts) as X.
      injection X as <-. reflexivity.
Qed.








(** X19: a negative subset size is taken as a request for a subset.  A
    loader can then only be built without shuffling, and it wraps a
    [Subset] of length 0 over the provider: every access to it raises
    [IndexError]. *)
Theorem negative_subset_is_empty
    (E : env) (batch_size_ size : Z) (shuffle_ : bool) (N : Z)
    (image_split : string) (caption_split : option string)
    (w w' : world) (loader : DataLoader) :
  N < 0 ->
  Dataloader.get_dataloader E
    (Dataloader.__init__ batch_size_ size shuffle_ N)
    image_split caption_split w = (Ok loader, w') ->
  shuffle_ = false
  /\ (exists provider : dataset, loader_dataset loader = Subset provider N)
  /\ dataset_len (loader_dataset loader) = 0
  /\ forall (idx : Z) (w2 : world),
      dataset_getitem E (loader_dataset loader) idx w2
      = (Raise IndexError, (loader_dataset loader, w2)).
Proof.
  intros HN Hbuilt.
  apply get_dataloader_inv in Hbuilt
    as (ts & provider & _ & Hinit & _).
  cbn [Dataloader._subset Dataloader._batch_size Dataloader._shuffle
       Dataloader.__init__] in Hinit.
  replace (truthy N) with true in Hinit
    by (unfold truthy; symmetry; apply negb_true_iff, Z.eqb_neq; lia).
  apply DataLoader_init_inv in Hinit as (-> & _ & Hshuffle).
  cbn [loader_dataset dataset_len] in *.
  assert (Hlen : range_len N = 0) by (unfold range_len; lia).
  split.
  { destruct shuffle_; [| reflexivity]. specialize (Hshuffle eq_refl). lia. }
  split; [now exists provider |]. split; [exact Hlen |].
  intros idx w2. cbn [dataset_getitem].
  rewrite range_getitem_outside; [reflexivity | lia].
Qed.

Lemma negative_subset_is_empty_witness :
  false = false
  /\ (exists provider : dataset,
         loader_dataset (Example.coco_loader (-3)) = Subset provider (-3))
  /\ dataset_len (loader_dataset (Example.coco_loader (-3))) = 0
  /\ forall (idx : Z) (w2 : world),
      dataset_getitem (Example.env_of Example.fs_coco)
        (loader_dataset (Example.coco_loader (-3))) idx w2
      = (Raise IndexError, (loader_dataset (Example.coco_loader (-3)), w2)).
Proof.
  apply (negative_subset_is_empty (Example.env_of Example.fs_coco)
           4 2 false (-3) "train2017" (Some "captions")
           Example.w0 Example.w0 (Example.coco_loader (-3))).
  - lia.
  - reflexivity.
Defined.



Lemma Data_init_world (E : env) (image_dir image_split : string)
    (caption_split : option string) (tr : option Compose) (w w' : world)
    (d : Data.obj) :
  Data.__init__ E image_dir image_split caption_split tr w = (Ok d, w') ->
  w' = w
  \/ w' = printed w ("Caption file for " ++ image_split ++ " not found.").
Proof.
  unfold Data.__init__, bind.
  destruct (json_load (fs E) _); simpl; intros [= _ <-];
    [now right | now left].
Qed.

(** X21: a loader is built only for one of the three splits, a size of
    at least one, a batch size of at least one and, with shuffling, a
    dataset that is not empty.  It then carries the batch size and the
    shuffle flag of the [Dataloader] and the collation function exactly
    when the split is not [test2017], and at most the one line about a
    missing caption file has been printed, never for the test split. *)
Theorem get_dataloader_outcome
    (E : env) (batch_size_ size : Z) (shuffle_ : bool) (subset : Z)
    (image_split : string) (caption_split : option string) (w w' : world)
    (loader : DataLoader) :
  Dataloader.get_dataloader E
    (Dataloader.__init__ batch_size_ size shuffle_ subset)
    image_split caption_split w = (Ok loader, w') ->
  In image_split splits
  /\ 1 <= size
  /\ 1 <= batch_size_
  /\ (shuffle_ = true -> 0 < dataset_len (loader_dataset loader))
  /\ batch_size loader = batch_size_
  /\ shuffle loader = shuffle_
  /\ collate_fn loader = negb (String.eqb image_split "test2017")
  /\ (w' = w
      \/ (image_split <> "test2017"
          /\ w' = printed w ("Caption file for " ++ image_split
                               ++ " not found."))).
Proof.
  intros Hbuilt.
  apply get_dataloader_inv in Hbuilt
    as (ts & provider & Hts & Hinit & Hbranch).
  apply transform_inv in Hts as (Hin & Hsize & _).
  apply DataLoader_init_inv in Hinit as (-> & Hbatch & Hshuffle).
  cbn [Dataloader._batch_size Dataloader._shuffle Dataloader.__init__] in *.
  do 3 (split; [assumption |]). split; [exact Hshuffle |].
  do 3 (split; [reflexivity |]).
  destruct Hbranch as [(_ & -> & _) | (Htest & d & Hd & _)]; [now left |].
  destruct (Data_init_world E _ _ _ _ _ _ _ Hd) as [-> | ->];
    [now left | right; now split].
Qed.

Lemma get_dataloader_outcome_witness :
  In "train2017" splits
  /\ 1 <= 2
  /\ 1 <= 4
  /\ (false = true -> 0 < dataset_len (loader_dataset (Example.coco_loader 0)))
  /\ batch_size (Example.coco_loader 0) = 4
  /\ shuffle (Example.coco_loader 0) = false
  /\ collate_fn (Example.coco_loader 0)
     = negb (String.eqb "train2017" "test2017")
  /\ (Example.w0 = Example.w0
      \/ ("train2017" <> "test2017"
          /\ Example.w0
             = printed Example.w0 ("Caption file for " ++ "train2017"
                                     ++ " not found."))).
Proof.
  apply (get_dataloader_outcome (Example.env_of Example.fs_coco)
           4 2 false 0 "train2017" (Some "captions")
           Example.w0 Example.w0 (Example.coco_loader 0)).
  reflexivity.
Defined.

(** ** From a path to an image id *)

Lemma chars_app (s t : string) : chars (s ++ t) = (chars s ++ chars t)%list.
Proof.
  unfold chars. induction s as [| c s IH]; simpl; [reflexivity |].
  now rewrite IH.
Qed.

Lemma basename_from_no_slash (name acc : string) :
  ~ In "/"%char (chars name) -> basename_from name acc = acc ++ name.
Proof.
  revert acc. induction name as [| c name IH]; intros acc Hno; simpl.
  - clear Hno. induction acc as [| a acc IHacc]; simpl; [reflexivity |].
    now rewrite <- IHacc.
  - destruct (Ascii.eqb_spec c "/") as [-> | _].
    + exfalso. apply Hno. now left.
    + rewrite IH by (intros Hin; apply Hno; now right).
      clear. induction acc as [| a acc IHacc]; simpl; [reflexivity |].
      now rewrite IHacc.
Qed.

Lemma split_dot_0_app (stem rest : string) :
  ~ In "."%char (chars stem) -> split_dot_0 (stem ++ "." ++ rest) = stem.
Proof.
  induction stem as [| c stem IH]; intros Hno.
  - reflexivity.
  - change (split_dot_0 (String c stem ++ "." ++ rest))
      with (if Ascii.eqb c "."
            then EmptyString
            else String c (split_dot_0 (stem ++ "." ++ rest))).
    destruct (Ascii.eqb_spec c ".") as [-> | _].
    + exfalso. apply Hno. now left.
    + rewrite IH; [reflexivity |]. intros Hin. apply Hno. now right.
Qed.

Lemma basename_of_file (dir name : string) :
  ~ In "/"%char (chars name) -> basename (dir ++ "/" ++ name) = name.
Proof.
  intros Hno. unfold basename. rewrite basename_from_app.
  change (basename_from ("/" ++ name) (basename_from dir ""))
    with (basename_from name "").
  now rewrite basename_from_no_slash.
Qed.

(** X22: the image id is read from the file name alone, up to its first
    dot: for a path [dir/stem.rest] whose stem has neither slash nor dot
    and whose rest has no slash, the number parsed is [int(stem)],
    whatever the directory and whatever follows the first dot. *)
Theorem image_id_of_path (dir stem rest : string) :
  ~ In "/"%char (chars stem) ->
  ~ In "."%char (chars stem) ->
  ~ In "/"%char (chars rest) ->
  int (split_dot_0 (basename (dir ++ "/" ++ stem ++ "." ++ rest))) = int stem.
Proof.
  intros Hslash Hdot Hrest.
  rewrite basename_of_file.
  - now rewrite split_dot_0_app.
  - rewrite chars_app, chars_app. intros Hin.
    apply in_app_or in Hin as [Hin | Hin]; [now apply Hslash |].
    apply in_app_or in Hin as [Hin | Hin]; [| now apply Hrest].
    destruct Hin as [Heq | []]. discriminate.
Qed.

Lemma image_id_of_path_witness :
  int (split_dot_0 (basename ("/data/coco/train2017" ++ "/" ++ "000123"
                                ++ "." ++ "v2.jpg")))
  = int "000123".
Proof.
  apply (image_id_of_path "/data/coco/train2017" "000123" "v2.jpg").
  - intros H. repeat (destruct H as [H | H]; [discriminate |]). exact H.
  - intros H. repeat (destruct H as [H | H]; [discriminate |]). exact H.
  - intros H. repeat (destruct H as [H | H]; [discriminate |]). exact H.
Defined.

(** The decimal printing of a number, read back. *)

Ltac digit_step :=
  cbn [NilEmpty.string_of_uint digits Pos.of_uint_acc Pos.of_uint];
  match goal with
  | |- context [isdigit ?c] =>
      let v := eval vm_compute in (digit_value c) in
      change (isdigit c) with true; change (digit_value c) with v; cbv iota
  end.

Lemma digits_of_uint_acc (d : Decimal.uint) (a : positive) :
  digits (NilEmpty.string_of_uint d) (Z.pos a) true
  = Some (Z.pos (Pos.of_uint_acc d a)).
Proof.
  revert a. induction d; intros a; [reflexivity | ..]; digit_step;
    match goal with
    | |- digits _ ?acc true = Some (Z.pos (Pos.of_uint_acc _ ?b)) =>
        replace acc with (Z.pos b) by lia; apply IHd
    end.
Qed.

Lemma digits_of_uint (d : Decimal.uint) :
  digits (NilEmpty.string_of_uint d) 0 true = Some (Z.of_N (Pos.of_uint d)).
Proof.
  induction d; [reflexivity | ..]; digit_step;
    [exact IHd | apply digits_of_uint_acc ..].
Qed.

Lemma digits_first_flag (d : Decimal.uint) (acc : Z) :
  d <> Decimal.Nil ->
  digits (NilEmpty.string_of_uint d) acc false
  = digits (NilEmpty.string_of_uint d) acc true.
Proof. destruct d; [congruence | reflexivity ..]. Qed.

Lemma uint_chars_plain (d : Decimal.uint) :
  Forall (fun c => isspace_c c = false /\ c <> "/"%char /\ c <> "."%char)
         (chars (NilEmpty.string_of_uint d)).
Proof.
  unfold chars. induction d; simpl; constructor; try assumption;
    (split; [reflexivity | split; discriminate]).
Qed.

Lemma lstrip_c_plain (s : string) :
  Forall (fun c => isspace_c c = false) (chars s) -> lstrip_c s = s.
Proof.
  destruct s as [| c s]; [reflexivity |].
  unfold chars. simpl. intros H. inversion H as [| ? ? Hc _]. now rewrite Hc.
Qed.

Lemma rstrip_c_plain (s : string) :
  Forall (fun c => isspace_c c = false) (chars s) -> rstrip_c s = s.
Proof.
  unfold chars. induction s as [| c s IH]; [reflexivity |].
  simpl. intros H. inversion H as [| ? ? Hc Hs]. subst.
  rewrite (IH Hs). destruct s; [now rewrite Hc | reflexivity].
Qed.

Lemma strip_c_plain (s : string) :
  Forall (fun c => isspace_c c = false) (chars s) ->
  rstrip_c (lstrip_c s) = s.
Proof.
  intros H. rewrite (lstrip_c_plain s H). now apply rstrip_c_plain.
Qed.

Lemma isdigit_not_sign (c : ascii) :
  isdigit c = true -> Ascii.eqb c "-" = false /\ Ascii.eqb c "+" = false.
Proof.
  intros Hc. split.
  - destruct (Ascii.eqb_spec c "-") as [-> | _]; [discriminate | reflexivity].
  - destruct (Ascii.eqb_spec c "+") as [-> | _]; [discriminate | reflexivity].
Qed.

Lemma int_unsigned (c : ascii) (t : string) (v : Z) :
  isdigit c = true ->
  Forall (fun a => isspace_c a = false) (chars (String c t)) ->
  digits (String c t) 0 false = Some v ->
  int (String c t) = Ok v.
Proof.
  intros Hc Hplain Hdigits.
  destruct (isdigit_not_sign c Hc) as [Hminus Hplus].
  unfold int. rewrite (strip_c_plain _ Hplain).
  cbv beta zeta iota. rewrite Hminus, Hplus, Hdigits.
  f_equal. all: lia.
Qed.

Lemma int_negative (t : string) (v : Z) :
  Forall (fun a => isspace_c a = false) (chars t) ->
  digits t 0 false = Some v ->
  int (String "-" t) = Ok (- v).
Proof.
  intros Hplain Hdigits.
  unfold int. rewrite strip_c_plain.
  2: { unfold chars. simpl. constructor; [reflexivity | exact Hplain]. }
  cbv beta zeta iota. change (Ascii.eqb "-" "-") with true. cbv iota.
  rewrite Hdigits. f_equal. all: lia.
Qed.

Lemma uint_string_digits (p : positive) :
  digits (NilEmpty.string_of_uint (Pos.to_uint p)) 0 false = Some (Z.pos p)
  /\ Forall (fun a => isspace_c a = false)
            (chars (NilEmpty.string_of_uint (Pos.to_uint p)))
  /\ exists c t, NilEmpty.string_of_uint (Pos.to_uint p) = String c t
                 /\ isdigit c = true.
Proof.
  pose proof (DecimalPos.Unsigned.to_uint_nonnil p) as Hnil.
  pose proof (DecimalPos.Unsigned.of_to p) as Hval.
  pose proof (digits_of_uint (Pos.to_uint p)) as Hdigits.
  rewrite Hval in Hdigits.
  split; [now rewrite digits_first_flag |]. split.
  - eapply Forall_impl; [| apply uint_chars_plain]. now intros c [Hc _].
  - destruct (Pos.to_uint p); [congruence | ..];
      eexists _, _; (split; [reflexivity | reflexivity]).
Qed.

Lemma int_of_uint_string (p : positive) :
  int (NilEmpty.string_of_uint (Pos.to_uint p)) = Ok (Z.pos p).
Proof.
  destruct (uint_string_digits p) as (Hdigits & Hplain & c & t & Hs & Hc).
  rewrite Hs in *. now apply int_unsigned.
Qed.

Lemma str_pos (p : positive) :
  str (Z.pos p) = NilEmpty.string_of_uint (Pos.to_uint p).
Proof.
  unfold str. simpl.
  pose proof (DecimalPos.Unsigned.to_uint_nonnil p) as Hnil.
  now destruct (Pos.to_uint p).
Qed.

Lemma str_neg (p : positive) :
  str (Z.neg p) = String "-" (NilEmpty.string_of_uint (Pos.to_uint p)).
Proof.
  unfold str. simpl.
  pose proof (DecimalPos.Unsigned.to_uint_nonnil p) as Hnil.
  now destruct (Pos.to_uint p).
Qed.

Lemma int_str (n : Z) : int (str n) = Ok n.
Proof.
  destruct n as [| p | p].
  - reflexivity.
  - rewrite str_pos. apply int_of_uint_string.
  - rewrite str_neg.
    destruct (uint_string_digits p) as (Hdigits & Hplain & _).
    now apply (int_negative _ (Z.pos p)).
Qed.

(** X23: printing an id and parsing it back is the identity, so the image
    file named after the printed id of a record, in any directory, is
    given that record's id: [int] of the stem of [dir/str(n).jpg] is
    [n]. *)
Theorem image_named_after_id (dir : string) (n : Z) :
  int (str n) = Ok n
  /\ int (split_dot_0 (basename (dir ++ "/" ++ str n ++ "." ++ "jpg")))
     = Ok n.
Proof.
  split; [apply int_str |].
  assert (Hplain : Forall (fun c => c <> "/"%char /\ c <> "."%char)
                          (chars (str n))).
  { destruct n as [| p | p].
    - repeat constructor; discriminate.
    - rewrite str_pos. eapply Forall_impl; [| apply uint_chars_plain].
      now intros c (_ & H1 & H2).
    - rewrite str_neg. unfold chars. simpl.
      constructor; [split; discriminate |].
      eapply Forall_impl; [| apply uint_chars_plain].
      now intros c (_ & H1 & H2). }
  rewrite Forall_forall in Hplain.
  assert (Hstem : int (split_dot_0 (basename (dir ++ "/" ++ str n ++ "."
                                                ++ "jpg")))
                  = int (str n)).
  { rewrite basename_of_file.
    - rewrite split_dot_0_app; [reflexivity |].
      intros Hin. now destruct (Hplain _ Hin) as [_ Hdot].
    - rewrite chars_app, chars_app. intros Hin.
      apply in_app_or in Hin as [Hin | Hin];
        [now destruct (Hplain _ Hin) as [Hslash _] |].
      apply in_app_or in Hin as [Hin | Hin].
      + destruct Hin as [Heq | []]. discriminate.
      + repeat (destruct Hin as [Hin | Hin]; [discriminate |]). exact Hin. }
  rewrite Hstem. apply int_str.
Qed.

(** ** When the warning is printed *)

(** X24: an access that reaches the lookup prints the warning exactly when
    no record of the caption store carries the integer id of the image:
    ids are compared as integers, so a record for the image always
    silences the warning, even one without captions. *)
Theorem getitem_warns_iff_no_record
    (E : env) (self : Data.obj) (idx : Z) (w : world)
    (path : string) (img : image) (n : Z) :
  getitem (Data._image_paths self) idx = Ok path ->
  imread (fs E) path = Some img ->
  int (split_dot_0 (basename path)) = Ok n ->
  let w' := snd (snd (Data.__getitem__ E idx (self, w))) in
  In (EvPrint (Data.no_captions_warning (str n)))
     (skipn (List.length (events w)) (events w'))
  <-> (forall a, In a (iter (Data._captions self)) -> image_id a <> n).
Proof.
  intros Hpath Himg Hid w'. subst w'.
  assert (Hlookup : Data.image_captions (Data._captions self) (str n)
                    = map captions (matching n (iter (Data._captions self)))).
  { destruct (Data._captions self) as [l |]; simpl iter.
    - apply image_captions_matching.
    - reflexivity. }
  assert (Hskip : forall suffix : list event,
             skipn (List.length (events w)) (events w ++ suffix)%list = suffix).
  { intros suffix. rewrite skipn_app, skipn_all, Nat.sub_diag. reflexivity. }
  split.
  - intros Hin a Ha Hn.
    assert (Hsome : Data.image_captions (Data._captions self) (str n) <> []).
    { rewrite Hlookup. intros Hnil. apply map_eq_nil in Hnil.
      assert (Hm : In a (matching n (iter (Data._captions self)))).
      { unfold matching. apply filter_In. split; [assumption |].
        now apply Z.eqb_eq. }
      rewrite Hnil in Hm. contradiction. }
    destruct (Data.last_assigned
                (Data.image_captions (Data._captions self) (str n)))
      as [| c1 caps] eqn:Hlast.
    + rewrite (getitem_silent E self idx w path img n
                 Hpath Himg Hid Hsome Hlast) in Hin.
      simpl in Hin. rewrite skipn_all in Hin. contradiction.
    + destruct (getitem_captioned E self idx w path img n (c1 :: caps)
                  Hpath Himg Hid Hsome Hlast)
        as (k & w1 & c & Hrand & Hc & Hget); [discriminate |].
      destruct (randint_range 0 (Z.of_nat (List.length (c1 :: caps)) - 1) w)
        as (k' & w1' & Hrand' & _ & Hevents); [simpl List.length; lia |].
      rewrite Hrand in Hrand'. injection Hrand' as <- <-.
      rewrite Hget in Hin.
      pose proof (apply_transform_events E (Data._transform self) img
                    (tokenized w1 (strip c))) as Hev.
      destruct (apply_transform E (Data._transform self) img
                  (tokenized w1 (strip c))) as [r w2].
      simpl in Hev, Hin. rewrite Hev, Hevents, <- List.app_assoc, Hskip in Hin.
      simpl in Hin. destruct Hin as [Hin | Hin]; [discriminate |].
      destruct (calls_transform (Data._transform self)); simpl in Hin;
        [destruct Hin as [Hin | []]; discriminate | contradiction].
  - intros Hnone.
    assert (Hempty : Data.image_captions (Data._captions self) (str n) = []).
    { rewrite Hlookup, (matching_none n _ Hnone). reflexivity. }
    rewrite (getitem_uncaptioned E self idx w path img n
               Hpath Himg Hid Hempty).
    unfold printed. simpl. rewrite Hskip. now left.
Qed.

Lemma getitem_warns_iff_no_record_witness :
  let w' := snd (snd (Data.__getitem__ (Example.env_of Example.fs_other) 0
                        (Example.data_of Example.fs_other, Example.w0))) in
  In (EvPrint (Data.no_captions_warning (str 123)))
     (skipn (List.length (events Example.w0)) (events w'))
  <-> (forall a,
          In a (iter (Data._captions (Example.data_of Example.fs_other))) ->
          image_id a <> 123).
Proof.
  apply (getitem_warns_iff_no_record (Example.env_of Example.fs_other)
           (Example.data_of Example.fs_other) 0 Example.w0
           Example.dog_path Example.dog_image 123).
  - reflexivity.
  - reflexivity.
  - reflexivity.
Defined.

(** ** The training and validation loaders *)


